(** * miro-mcp: the Miro REST client and its bulk operations

    A shallow embedding of [src/MiroClient.ts] (class [MiroClient]) and of the
    credential resolution at the top of [src/index.ts].

    - JavaScript values are a small inductive type [JsVal]; object literals are
      association lists in insertion order.
    - [async] methods run in a state-and-exception monad [M]: the state is the
      trace of HTTP requests handed to [fetch] together with the lines written
      by [console.error]; an exception is a thrown JavaScript error.
    - The remote service, [JSON.stringify], [JSON.parse] (behind
      [response.json()]) and [URLSearchParams] are library code outside the
      repository; they are Section variables, so every theorem holds for any
      behaviour of the remote service. *)

From Stdlib Require Import String Ascii List ZArith Lia Bool DecimalString.
Import ListNotations.

Set Warnings "-register-all".

Open Scope list_scope.
Open Scope string_scope.

(** ** JavaScript values *)

Module Js.

(** A JSON-like JavaScript value.  Numbers are kept as integers: the client
    only tests them for truthiness, prints them in decimal and passes them
    through. *)
Inductive JsVal : Type :=
| JUndefined
| JNull
| JBool (b : bool)
| JNum (n : Z)
| JStr (s : string)
| JArr (elems : list JsVal)
| JObj (props : list (string * JsVal)).

(** A thrown value: [new Error(message)] and the runtime's own errors. *)
Record JsError : Type := mkError { err_name : string; err_message : string }.

Definition Error (message : string) : JsError := mkError "Error" message.
Definition TypeError (message : string) : JsError := mkError "TypeError" message.

Definition str_truthy (s : string) : bool :=
  match s with EmptyString => false | String _ _ => true end.

(** ToBoolean. *)
Definition truthy (v : JsVal) : bool :=
  match v with
  | JUndefined | JNull => false
  | JBool b => b
  | JNum n => negb (n =? 0)%Z
  | JStr s => str_truthy s
  | JArr _ | JObj _ => true
  end.

(** [a || b] *)
Definition or (a b : JsVal) : JsVal := if truthy a then a else b.

(** An optional string ([string | undefined]); the empty string is falsy. *)
Definition ostr_truthy (o : option string) : bool :=
  match o with Some s => str_truthy s | None => false end.

Definition ostr_or (a b : option string) : option string :=
  if ostr_truthy a then a else b.

Definition of_ostr (o : option string) : JsVal :=
  match o with Some s => JStr s | None => JUndefined end.

Fixpoint assoc (k : string) (ps : list (string * JsVal)) : option JsVal :=
  match ps with
  | [] => None
  | (k', v) :: ps' => if String.eqb k k' then Some v else assoc k ps'
  end.

(** [o.k] on an object literal: [undefined] when the key is missing. *)
Definition get (o : list (string * JsVal)) (k : string) : JsVal :=
  match assoc k o with Some v => v | None => JUndefined end.

(** [v.k] on an arbitrary value.  Reading a property of [undefined] or [null]
    throws; the keys the client reads are never inherited properties of
    strings, numbers, booleans or arrays, where the read gives [undefined]. *)
Definition prop (v : JsVal) (k : string) : JsError + JsVal :=
  match v with
  | JUndefined =>
      inl (TypeError ("Cannot read properties of undefined (reading '" ++ k ++ "')"))
  | JNull =>
      inl (TypeError ("Cannot read properties of null (reading '" ++ k ++ "')"))
  | JObj ps => inr (get ps k)
  | _ => inr JUndefined
  end.

(** [v?.k] *)
Definition opt_prop (v : JsVal) (k : string) : JsVal :=
  match prop v k with inr x => x | inl _ => JUndefined end.

(** [v === 'lit'] *)
Definition is_str (v : JsVal) (lit : string) : bool :=
  match v with JStr s => String.eqb s lit | _ => false end.

(** [`${n}`] and [n.toString()] for an integer. *)
Definition num_to_string (n : Z) : string := NilZero.string_of_int (Z.to_int n).

(** [{ ...(c ? { k: v } : {}) }] inside an object literal. *)
Definition spread_if (c : bool) (ps : list (string * JsVal)) : list (string * JsVal) :=
  if c then ps else [].

(** [hay.includes(needle)] *)
Fixpoint includes (hay needle : string) : bool :=
  String.prefix needle hay
  || match hay with
     | EmptyString => false
     | String _ hay' => includes hay' needle
     end.

End Js.
Import Js.

(** ** HTTP requests and responses, as [node-fetch] shows them *)

Record Request : Type := mkRequest {
  req_url : string;
  req_method : string;
  req_headers : list (string * string);
  req_body : option string
}.

Record Response : Type := mkResponse {
  status : Z;
  statusText : string;
  content_type : option string;  (* [headers.get('content-type')] *)
  text : string                  (* the raw body, [await response.text()] *)
}.

(** [response.ok] *)
Definition ok (r : Response) : bool := (200 <=? status r)%Z && (status r <? 300)%Z.

(** One line of [console.error(message, error)]. *)
Record LogEntry : Type := mkLog { log_message : string; log_error : JsError }.

(** What an observer of the process sees: the requests handed to [fetch], in
    order, and the error console. *)
Record World : Type := mkWorld {
  calls : list Request;
  console : list LogEntry
}.

Definition initial : World := mkWorld [] [].

(** ** The monad of [async] methods *)

Inductive Result (A : Type) : Type :=
| Ok (a : A)
| Throw (e : JsError).
Arguments Ok {A} a.
Arguments Throw {A} e.

Definition M (A : Type) : Type := World -> Result A * World.

Definition ret {A} (a : A) : M A := fun w => (Ok a, w).

Definition throw {A} (e : JsError) : M A := fun w => (Throw e, w).

Definition bind {A B} (m : M A) (k : A -> M B) : M B :=
  fun w =>
    match m w with
    | (Ok a, w') => k a w'
    | (Throw e, w') => (Throw e, w')
    end.

(** [try { m } catch (error) { handler error }] *)
Definition try_catch {A} (m : M A) (handler : JsError -> M A) : M A :=
  fun w =>
    match m w with
    | (Ok a, w') => (Ok a, w')
    | (Throw e, w') => handler e w'
    end.

Definition lift {A} (r : JsError + A) : M A :=
  match r with inl e => throw e | inr a => ret a end.

(** The world after [console.error(message, error)]. *)
Definition logged (w : World) (message : string) (error : JsError) : World :=
  mkWorld (calls w) (console w ++ [mkLog message error])%list.

(** The world after one more request was handed to [fetch]. *)
Definition sent (w : World) (req : Request) : World :=
  mkWorld (calls w ++ [req])%list (console w).

Definition console_error (message : string) (error : JsError) : M unit :=
  fun w => (Ok tt, logged w message error).

Declare Scope js_scope.
Delimit Scope js_scope with js.
Notation "x <- m ;; k" := (bind m (fun x => k))
  (at level 61, m at next level, right associativity) : js_scope.
Notation "m ;;; k" := (bind m (fun _ => k))
  (at level 61, right associativity) : js_scope.
Open Scope js_scope.

(** [for (const x of xs) { body }] with the local variables the body updates
    carried from one iteration to the next. *)
Fixpoint for_of {A S} (xs : list A) (body : A -> S -> M S) (s : S) : M S :=
  match xs with
  | [] => ret s
  | x :: xs' => s' <- body x s ;; for_of xs' body s'
  end.

(** ** Inputs of the client's methods *)

(** An object literal: its properties in insertion order. *)
Definition Obj : Type := list (string * JsVal).

(** [{ x: 0, y: 0, origin: 'center' }] *)
Definition center : JsVal :=
  JObj [("x", JNum 0); ("y", JNum 0); ("origin", JStr "center")].

(** [interface CreateItemData]; optional and [any] members are [JsVal]s,
    [JUndefined] when left out. *)
Record CreateItemData : Type := mkItem {
  item_type : string;
  item_data : JsVal;
  item_style : JsVal;
  item_position : JsVal;
  item_geometry : JsVal;
  item_parent : JsVal
}.

(** An element of [bulkUpdateItems]' argument: [{ id: string; data: any }]. *)
Record ItemUpdate : Type := mkUpdate {
  update_id : string;
  update_data : JsVal
}.

(** The argument of [createConnector], and an element of
    [bulkCreateConnectors]' argument. *)
Record ConnectorData : Type := mkConnector {
  startItemId : string;
  endItemId : string;
  caption : option string;
  connector_style : JsVal
}.

(** The [options] argument of [getBoardItems]. *)
Record BoardItemsOptions : Type := mkItemsOptions {
  opt_type : option string;
  opt_parentItemId : option string;
  opt_cursor : option string;
  opt_limit : option Z
}.

(** The [options] argument of [fetchApi]. *)
Record FetchOptions : Type := mkOptions {
  method : option string;
  body : JsVal;
  params : option (list (string * string))
}.

Definition no_options : FetchOptions := mkOptions None JUndefined None.
Definition with_method (m : string) : FetchOptions := mkOptions (Some m) JUndefined None.
Definition with_body (m : string) (b : JsVal) : FetchOptions := mkOptions (Some m) b None.
Definition with_params (p : list (string * string)) : FetchOptions :=
  mkOptions None JUndefined (Some p).

(** [class MiroClient { constructor(private token: string) {} ... }] *)
Record MiroClient : Type := mkClient { token : string }.

(** ** Credential resolution ([src/index.ts]) *)

Module Index.

(** [(argv.token as string) || process.env.MIRO_OAUTH_TOKEN] *)
Definition oauthToken (argv_token env_token : option string) : option string :=
  ostr_or argv_token env_token.

(** How the start of the program ends: [process.exit(code)], or the client is
    constructed and the server goes on to register its handlers. *)
Inductive Startup : Type :=
| Exit (code : Z)
| Serving (miroClient : MiroClient).

Definition missing_token_message : string :=
  "Error: Miro OAuth token is required. Provide it via MIRO_OAUTH_TOKEN environment variable or --token argument".

(** [`${t.substring(0, 5)}...${t.substring(t.length - 5)}`] *)
Definition masked (t : string) : string :=
  let n := String.length t in
  substring 0 5 t ++ "..." ++ substring (n - 5) (n - (n - 5)) t.

(** The lines written by the two [console.log] calls and by [console.error]. *)
Definition startup_stdout (argv_token env_token : option string) : list string :=
  [ "OAuth Token (masked): "
      ++ (if ostr_truthy (oauthToken argv_token env_token)
          then match oauthToken argv_token env_token with
               | Some t => masked t
               | None => "undefined"
               end
          else "undefined");
    "MIRO_OAUTH_TOKEN env var exists: "
      ++ (if ostr_truthy env_token then "Yes" else "No") ].

Definition startup_stderr (argv_token env_token : option string) : list string :=
  if negb (ostr_truthy (oauthToken argv_token env_token))
  then [missing_token_message] else [].

Definition startup (argv_token env_token : option string) : Startup :=
  match oauthToken argv_token env_token with
  | Some t => if negb (str_truthy t) then Exit 1 else Serving (mkClient t)
  | None => Exit 1
  end.

End Index.

(** ** Test doubles

    Concrete stand-ins for the library functions and for the remote service,
    used to run the client on examples. *)

Module Doubles.

(** Stands in for [JSON.stringify]: scalars are printed, composite values
    abbreviated. *)
Definition stringify (v : JsVal) : string :=
  match v with
  | JUndefined => "undefined"
  | JNull => "null"
  | JBool true => "true"
  | JBool false => "false"
  | JNum n => num_to_string n
  | JStr s => s
  | JArr _ => "[...]"
  | JObj _ => "{...}"
  end.

(** Stands in for [JSON.parse]: an empty body is a syntax error, any other
    body [s] is read as an item whose [id] and [type] are both [s]. *)
Definition parse (s : string) : JsError + JsVal :=
  match s with
  | EmptyString => inl (mkError "SyntaxError" "Unexpected end of JSON input")
  | _ => inr (JObj [("id", JStr s); ("type", JStr s)])
  end.

(** Stands in for [URLSearchParams]: no escaping. *)
Definition query_string (ps : list (string * string)) : string :=
  String.concat "&" (map (fun kv => fst kv ++ "=" ++ snd kv) ps).

Definition client : MiroClient := mkClient "secret".

(** A service that creates: the n-th request is answered 201 with the JSON
    body [item-n]. *)
Definition creating : list Request -> Request -> JsError + Response :=
  fun history _ =>
    inr (mkResponse 201 "Created" (Some "application/json")
           ("item-" ++ num_to_string (Z.of_nat (S (length history))))).

(** The same service, except that its second request is answered 500. *)
Definition second_fails : list Request -> Request -> JsError + Response :=
  fun history req =>
    if Nat.eqb (length history) 1
    then inr (mkResponse 500 "Internal Server Error" (Some "text/plain") "boom")
    else creating history req.

(** A service whose items are all shapes. *)
Definition shapes : list Request -> Request -> JsError + Response :=
  fun _ _ => inr (mkResponse 200 "OK" (Some "application/json; charset=utf-8") "shape").

(** A service that knows no item. *)
Definition not_found : list Request -> Request -> JsError + Response :=
  fun _ _ => inr (mkResponse 404 "Not Found" (Some "application/json") "no such item").

(** A service that answers 200 with an empty body and no Content-Type. *)
Definition empty_200 : list Request -> Request -> JsError + Response :=
  fun _ _ => inr (mkResponse 200 "OK" None "").

(** A service that answers 204. *)
Definition no_content : list Request -> Request -> JsError + Response :=
  fun _ _ => inr (mkResponse 204 "No Content" None "").

(** Stands in for [JSON.stringify(value, null, 2)]. *)
Definition pretty (v : JsVal) : option string := Some (stringify v).

Definition sticky (content : string) : CreateItemData :=
  mkItem "sticky_note" (JObj [("content", JStr content)])
         JUndefined JUndefined JUndefined JUndefined.

Definition link (a b : string) : ConnectorData := mkConnector a b None JUndefined.

End Doubles.

(** ** The client *)

Section Client.

(** [JSON.stringify], [JSON.parse] as used by [response.json()], and
    [new URLSearchParams(params).toString()]. *)
Variable JSON_stringify : JsVal -> string.
Variable JSON_parse : string -> JsError + JsVal.
Variable URLSearchParams_toString : list (string * string) -> string.

(** The remote service behind [node-fetch]: given the requests it has already
    received and a new one, [fetch] rejects with an error or resolves with a
    response. *)
Variable remote : list Request -> Request -> JsError + Response.

Variable this : MiroClient.

(** [await fetch(url, init)]: the request is recorded, the service answers. *)
Definition fetch (req : Request) : M Response :=
  fun w =>
    match remote (calls w) req with
    | inl e => (Throw e, sent w req)
    | inr r => (Ok r, sent w req)
    end.

(** The request [fetchApi] builds for a path and options. *)
Definition request_of (path : string) (options : FetchOptions) : Request :=
  let url := "https://api.miro.com/v2" ++ path in
  let url :=
    match params options with
    | Some p => url ++ "?" ++ URLSearchParams_toString p
    | None => url
    end in
  let requestBody :=
    if truthy (body options) then Some (JSON_stringify (body options)) else None in
  mkRequest url
    (match ostr_or (method options) (Some "GET") with Some m => m | None => "GET" end)
    [("Authorization", "Bearer " ++ token this); ("Content-Type", "application/json")]
    (if ostr_truthy requestBody then requestBody else None).

Definition api_error (response : Response) : JsError :=
  Error ("Miro API error: " ++ num_to_string (status response) ++ " "
         ++ statusText response ++ " - " ++ text response).

Definition fetchApi (path : string) (options : FetchOptions) : M JsVal :=
  response <- fetch (request_of path options) ;;
  if negb (ok response) then
    throw (api_error response)
  else if (status response =? 204)%Z
          || match method options with Some m => String.eqb m "DELETE" | None => false end
  then ret (JObj [])
  else
    let contentType := content_type response in
    if ostr_truthy contentType
       && match contentType with
          | Some c => includes c "application/json"
          | None => false
          end
    then lift (JSON_parse (text response))
    else ret (JObj []).

(** [await this.fetchApi(...)] in a method returning [Promise<void>]. *)
Definition void (m : M JsVal) : M unit := m ;;; ret tt.

(** *** Boards *)

Definition getBoards (query teamId : option string) : M JsVal :=
  let params := [] in
  let params := if ostr_truthy query
                then (params ++ [("query", match query with Some q => q | None => "" end)])%list
                else params in
  let params := if ostr_truthy teamId
                then (params ++ [("team_id", match teamId with Some t => t | None => "" end)])%list
                else params in
  response <- fetchApi "/boards" (with_params params) ;;
  lift (prop response "data").

Definition getBoard (boardId : string) : M JsVal :=
  fetchApi ("/boards/" ++ boardId) no_options.

Definition createBoard (data : Obj) : M JsVal :=
  fetchApi "/boards" (with_body "POST" (JObj data)).

Definition updateBoard (boardId : string) (data : Obj) : M JsVal :=
  fetchApi ("/boards/" ++ boardId) (with_body "PATCH" (JObj data)).

Definition copyBoard (boardId : string) (data : Obj) : M JsVal :=
  fetchApi ("/boards/" ++ boardId ++ "/copy") (with_body "POST" (JObj data)).

Definition deleteBoard (boardId : string) : M unit :=
  void (fetchApi ("/boards/" ++ boardId) (with_method "DELETE")).

(** *** Items, generic *)

Definition getBoardItems (boardId : string) (options : option BoardItemsOptions) : M JsVal :=
  let params := [] in
  let params :=
    match options with
    | Some o => match opt_type o with
                | Some t => if str_truthy t then (params ++ [("type", t)])%list else params
                | None => params
                end
    | None => params
    end in
  let params :=
    match options with
    | Some o => match opt_parentItemId o with
                | Some p => if str_truthy p then (params ++ [("parent_item_id", p)])%list else params
                | None => params
                end
    | None => params
    end in
  let params :=
    match options with
    | Some o => match opt_cursor o with
                | Some c => if str_truthy c then (params ++ [("cursor", c)])%list else params
                | None => params
                end
    | None => params
    end in
  let params :=
    match options with
    | Some o => match opt_limit o with
                | Some n => if negb (n =? 0)%Z
                            then (params ++ [("limit", num_to_string n)])%list else params
                | None => params
                end
    | None => params
    end in
  response <- fetchApi ("/boards/" ++ boardId ++ "/items") (with_params params) ;;
  lift (prop response "data").

Definition getItem (boardId itemId : string) : M JsVal :=
  fetchApi ("/boards/" ++ boardId ++ "/items/" ++ itemId) no_options.

(** The [switch (item.type)] of [updateItem]. *)
Definition update_endpoint (boardId itemId : string) (type : JsVal) : string :=
  if is_str type "sticky_note" then "/boards/" ++ boardId ++ "/sticky_notes/" ++ itemId
  else if is_str type "shape" then "/boards/" ++ boardId ++ "/shapes/" ++ itemId
  else if is_str type "text" then "/boards/" ++ boardId ++ "/texts/" ++ itemId
  else if is_str type "card" then "/boards/" ++ boardId ++ "/cards/" ++ itemId
  else if is_str type "connector" then "/boards/" ++ boardId ++ "/connectors/" ++ itemId
  else if is_str type "frame" then "/boards/" ++ boardId ++ "/frames/" ++ itemId
  else if is_str type "image" then "/boards/" ++ boardId ++ "/images/" ++ itemId
  else if is_str type "document" then "/boards/" ++ boardId ++ "/documents/" ++ itemId
  else if is_str type "embed" then "/boards/" ++ boardId ++ "/embeds/" ++ itemId
  else "/boards/" ++ boardId ++ "/items/" ++ itemId.

Definition updateItem (boardId itemId : string) (data : JsVal) : M JsVal :=
  item <- getItem boardId itemId ;;
  type <- lift (prop item "type") ;;
  let endpoint := update_endpoint boardId itemId type in
  fetchApi endpoint (with_body "PATCH" data).

Definition deleteItem (boardId itemId : string) : M unit :=
  void (fetchApi ("/boards/" ++ boardId ++ "/items/" ++ itemId) (with_method "DELETE")).

(** *** Sticky notes, shapes, texts, cards *)

Definition createStickyNote (boardId : string) (data : Obj) : M JsVal :=
  let stickyData := JObj [
    ("data", JObj [("content", get data "content")]);
    ("style", JObj [("fillColor", or (get data "color") (JStr "yellow"));
                    ("textAlign", JStr "center");
                    ("textAlignVertical", JStr "middle")]);
    ("position", or (get data "position") center)
  ] in
  fetchApi ("/boards/" ++ boardId ++ "/sticky_notes") (with_body "POST" stickyData).

Definition updateStickyNote (boardId itemId : string) (data : JsVal) : M JsVal :=
  fetchApi ("/boards/" ++ boardId ++ "/sticky_notes/" ++ itemId) (with_body "PATCH" data).

Definition createShape (boardId : string) (data : Obj) : M JsVal :=
  let shapeData := JObj [
    ("data", JObj ([("shape", get data "shape")]
                   ++ spread_if (truthy (get data "content"))
                        [("content", get data "content")])%list);
    ("position", or (get data "position") center);
    ("geometry", or (get data "geometry")
                    (JObj [("width", JNum 200); ("height", JNum 200); ("rotation", JNum 0)]));
    ("style", or (get data "style")
                 (JObj [("fillColor", JStr "#ffffff");
                        ("borderColor", JStr "#000000");
                        ("borderWidth", JNum 2);
                        ("borderStyle", JStr "normal");
                        ("fillOpacity", JNum 1);
                        ("borderOpacity", JNum 1)]))
  ] in
  fetchApi ("/boards/" ++ boardId ++ "/shapes") (with_body "POST" shapeData).

Definition updateShape (boardId itemId : string) (data : JsVal) : M JsVal :=
  fetchApi ("/boards/" ++ boardId ++ "/shapes/" ++ itemId) (with_body "PATCH" data).

Definition createText (boardId : string) (data : Obj) : M JsVal :=
  let textData := JObj [
    ("data", JObj [("content", get data "content")]);
    ("position", or (get data "position") center);
    ("style", or (get data "style")
                 (JObj [("color", JStr "#000000");
                        ("fontSize", JNum 14);
                        ("fontFamily", JStr "Arial");
                        ("textAlign", JStr "left")]));
    ("geometry", or (get data "geometry") (JObj [("width", JNum 200)]))
  ] in
  fetchApi ("/boards/" ++ boardId ++ "/texts") (with_body "POST" textData).

Definition updateText (boardId itemId : string) (data : JsVal) : M JsVal :=
  fetchApi ("/boards/" ++ boardId ++ "/texts/" ++ itemId) (with_body "PATCH" data).

Definition createCard (boardId : string) (data : Obj) : M JsVal :=
  let cardData := JObj [
    ("data", JObj (spread_if (truthy (get data "title")) [("title", get data "title")]
                   ++ spread_if (truthy (get data "description"))
                        [("description", get data "description")])%list);
    ("position", or (get data "position") center);
    ("style", or (get data "style") (JObj [("cardTheme", JStr "#ffffff")]))
  ] in
  fetchApi ("/boards/" ++ boardId ++ "/cards") (with_body "POST" cardData).

Definition updateCard (boardId itemId : string) (data : JsVal) : M JsVal :=
  fetchApi ("/boards/" ++ boardId ++ "/cards/" ++ itemId) (with_body "PATCH" data).

(** *** Connectors *)

Definition createConnector (boardId : string) (data : ConnectorData) : M JsVal :=
  let connectorData := JObj (
    [("startItem", JObj [("id", JStr (startItemId data)); ("snapTo", JStr "auto")]);
     ("endItem", JObj [("id", JStr (endItemId data)); ("snapTo", JStr "auto")])]
    ++ spread_if (ostr_truthy (caption data))
         [("captions", JArr [JObj [("content", of_ostr (caption data));
                                   ("position", JStr "50%")]])]
    ++ [("style", or (connector_style data)
                     (JObj [("strokeColor", JStr "#000000");
                            ("strokeWidth", JNum 2);
                            ("strokeStyle", JStr "normal")]))])%list in
  fetchApi ("/boards/" ++ boardId ++ "/connectors") (with_body "POST" connectorData).

Definition updateConnector (boardId itemId : string) (data : JsVal) : M JsVal :=
  fetchApi ("/boards/" ++ boardId ++ "/connectors/" ++ itemId) (with_body "PATCH" data).

(** *** Frames *)

Definition createFrame (boardId : string) (data : Obj) : M JsVal :=
  let frameData := JObj [
    ("data", JObj (spread_if (truthy (get data "title")) [("title", get data "title")]));
    ("position", or (get data "position") center);
    ("geometry", or (get data "geometry") (JObj [("width", JNum 400); ("height", JNum 300)]));
    ("style", or (get data "style") (JObj [("fillColor", JStr "#ffffff")]))
  ] in
  fetchApi ("/boards/" ++ boardId ++ "/frames") (with_body "POST" frameData).

Definition updateFrame (boardId itemId : string) (data : JsVal) : M JsVal :=
  fetchApi ("/boards/" ++ boardId ++ "/frames/" ++ itemId) (with_body "PATCH" data).

Definition getFrames (boardId : string) : M JsVal :=
  getBoardItems boardId (Some (mkItemsOptions (Some "frame") None None None)).

Definition getItemsInFrame (boardId frameId : string) : M JsVal :=
  getBoardItems boardId (Some (mkItemsOptions None (Some frameId) None None)).

(** *** Images, documents, embeds *)

Definition createImage (boardId : string) (data : Obj) : M JsVal :=
  let imageData := JObj [
    ("data", JObj [("url", get data "url")]);
    ("position", or (get data "position") center);
    ("geometry", or (get data "geometry") (JObj [("width", JNum 200); ("height", JNum 200)]))
  ] in
  fetchApi ("/boards/" ++ boardId ++ "/images") (with_body "POST" imageData).

Definition updateImage (boardId itemId : string) (data : JsVal) : M JsVal :=
  fetchApi ("/boards/" ++ boardId ++ "/images/" ++ itemId) (with_body "PATCH" data).

Definition createDocument (boardId : string) (data : Obj) : M JsVal :=
  let documentData := JObj [
    ("data", JObj ([("url", get data "url")]
                   ++ spread_if (truthy (get data "title")) [("title", get data "title")])%list);
    ("position", or (get data "position") center)
  ] in
  fetchApi ("/boards/" ++ boardId ++ "/documents") (with_body "POST" documentData).

Definition updateDocument (boardId itemId : string) (data : JsVal) : M JsVal :=
  fetchApi ("/boards/" ++ boardId ++ "/documents/" ++ itemId) (with_body "PATCH" data).

Definition createEmbed (boardId : string) (data : Obj) : M JsVal :=
  let embedData := JObj [
    ("data", JObj [("url", get data "url")]);
    ("position", or (get data "position") center);
    ("geometry", or (get data "geometry") (JObj [("width", JNum 320); ("height", JNum 180)]))
  ] in
  fetchApi ("/boards/" ++ boardId ++ "/embeds") (with_body "POST" embedData).

Definition updateEmbed (boardId itemId : string) (data : JsVal) : M JsVal :=
  fetchApi ("/boards/" ++ boardId ++ "/embeds/" ++ itemId) (with_body "PATCH" data).

(** *** Bulk operations *)

(** The body of the [try] block of [bulkCreateItems] up to the assignment of
    [createdItem]: the [switch (item.type)]. *)
Definition bulkCreateItems_switch (boardId : string) (item : CreateItemData) : M JsVal :=
  let type := item_type item in
  if String.eqb type "sticky_note" then
    content <- lift (prop (item_data item) "content") ;;
    createStickyNote boardId [
      ("content", content);
      ("color", or (opt_prop (item_style item) "fillColor") (JStr "yellow"));
      ("position", item_position item)]
  else if String.eqb type "text" then
    content <- lift (prop (item_data item) "content") ;;
    createText boardId [
      ("content", content);
      ("position", item_position item);
      ("style", item_style item);
      ("geometry", item_geometry item)]
  else if String.eqb type "shape" then
    shape <- lift (prop (item_data item) "shape") ;;
    content <- lift (prop (item_data item) "content") ;;
    createShape boardId [
      ("shape", shape);
      ("content", content);
      ("position", item_position item);
      ("geometry", item_geometry item);
      ("style", item_style item)]
  else if String.eqb type "card" then
    title <- lift (prop (item_data item) "title") ;;
    description <- lift (prop (item_data item) "description") ;;
    createCard boardId [
      ("title", title);
      ("description", description);
      ("position", item_position item);
      ("style", item_style item)]
  else if String.eqb type "frame" then
    title <- lift (prop (item_data item) "title") ;;
    geometry <-
      (if truthy (item_geometry item) then
         width <- lift (prop (item_geometry item) "width") ;;
         height <- lift (prop (item_geometry item) "height") ;;
         ret (JObj [("width", or width (JNum 400)); ("height", or height (JNum 300))])
       else ret JUndefined) ;;
    createFrame boardId [
      ("title", title);
      ("position", item_position item);
      ("geometry", geometry);
      ("style", item_style item)]
  else if String.eqb type "image" then
    url <- lift (prop (item_data item) "url") ;;
    createImage boardId [
      ("url", url);
      ("position", item_position item);
      ("geometry", item_geometry item)]
  else if String.eqb type "document" then
    url <- lift (prop (item_data item) "url") ;;
    title <- lift (prop (item_data item) "title") ;;
    createDocument boardId [
      ("url", url);
      ("title", title);
      ("position", item_position item)]
  else if String.eqb type "embed" then
    url <- lift (prop (item_data item) "url") ;;
    createEmbed boardId [
      ("url", url);
      ("position", item_position item);
      ("geometry", item_geometry item)]
  else
    throw (Error ("Unsupported item type: " ++ type)).

(** One iteration of the loop of [bulkCreateItems]: the [try]/[catch]. *)
Definition bulkCreateItems_body (boardId : string) (item : CreateItemData)
  (createdItems : list JsVal) : M (list JsVal) :=
  try_catch
    (createdItem <- bulkCreateItems_switch boardId item ;;
     ret (createdItems ++ [createdItem])%list)
    (fun error =>
       console_error ("Failed to create item of type " ++ item_type item ++ ":") error ;;;
       ret createdItems).

Definition bulkCreateItems (boardId : string) (items : list CreateItemData) : M (list JsVal) :=
  if (20 <? length items)%nat then
    throw (Error "Cannot create more than 20 items in a single bulk operation")
  else
    for_of items (bulkCreateItems_body boardId) [].

Definition bulkUpdateItems (boardId : string) (updates : list ItemUpdate) : M (list JsVal) :=
  if (20 <? length updates)%nat then
    throw (Error "Cannot update more than 20 items in a single bulk operation")
  else
    for_of updates
      (fun update updatedItems =>
         try_catch
           (updatedItem <- updateItem boardId (update_id update) (update_data update) ;;
            ret (updatedItems ++ [updatedItem])%list)
           (fun error =>
              console_error ("Failed to update item " ++ update_id update ++ ":") error ;;;
              ret updatedItems))
      [].

Definition bulkDeleteItems (boardId : string) (itemIds : list string) : M unit :=
  if (20 <? length itemIds)%nat then
    throw (Error "Cannot delete more than 20 items in a single bulk operation")
  else
    for_of itemIds
      (fun itemId _ =>
         try_catch
           (deleteItem boardId itemId)
           (fun error =>
              console_error ("Failed to delete item " ++ itemId ++ ":") error))
      tt.

Definition bulkCreateConnectors (boardId : string) (connectors : list ConnectorData)
  : M (list JsVal) :=
  if (20 <? length connectors)%nat then
    throw (Error "Cannot create more than 20 connectors at once")
  else
    for_of connectors
      (fun connector createdConnectors =>
         try_catch
           (createdConnector <- createConnector boardId connector ;;
            ret (createdConnectors ++ [createdConnector])%list)
           (fun error =>
              console_error ("Failed to create connector from " ++ startItemId connector
                             ++ " to " ++ endItemId connector ++ ":") error ;;;
              ret createdConnectors))
      [].

(** *** Tags *)

Definition getTags (boardId : string) : M JsVal :=
  response <- fetchApi ("/boards/" ++ boardId ++ "/tags") no_options ;;
  lift (prop response "data").

Definition createTag (boardId : string) (data : Obj) : M JsVal :=
  let tagData := JObj [
    ("title", get data "title");
    ("fillColor", or (get data "fillColor") (JStr "red"))
  ] in
  fetchApi ("/boards/" ++ boardId ++ "/tags") (with_body "POST" tagData).

Definition updateTag (boardId tagId : string) (data : Obj) : M JsVal :=
  fetchApi ("/boards/" ++ boardId ++ "/tags/" ++ tagId) (with_body "PATCH" (JObj data)).

Definition deleteTag (boardId tagId : string) : M unit :=
  void (fetchApi ("/boards/" ++ boardId ++ "/tags/" ++ tagId) (with_method "DELETE")).

Definition attachTagToItem (boardId itemId tagId : string) : M unit :=
  void (fetchApi ("/boards/" ++ boardId ++ "/items/" ++ itemId ++ "/tags/" ++ tagId)
          (with_method "POST")).

Definition removeTagFromItem (boardId itemId tagId : string) : M unit :=
  void (fetchApi ("/boards/" ++ boardId ++ "/items/" ++ itemId ++ "/tags/" ++ tagId)
          (with_method "DELETE")).

(** *** Groups *)

Definition createGroup (boardId : string) (data : Obj) : M JsVal :=
  let groupData := JObj (
    [("itemIds", get data "itemIds")]
    ++ spread_if (truthy (get data "title"))
         [("data", JObj [("title", get data "title")])]
    ++ [("style", or (get data "style") (JObj [("fillColor", JStr "#ffffff")]))])%list in
  fetchApi ("/boards/" ++ boardId ++ "/groups") (with_body "POST" groupData).

Definition updateGroup (boardId groupId : string) (data : JsVal) : M JsVal :=
  fetchApi ("/boards/" ++ boardId ++ "/groups/" ++ groupId) (with_body "PATCH" data).

Definition deleteGroup (boardId groupId : string) : M unit :=
  void (fetchApi ("/boards/" ++ boardId ++ "/groups/" ++ groupId) (with_method "DELETE")).

(** *** Board members *)

Definition getBoardMembers (boardId : string) : M JsVal :=
  response <- fetchApi ("/boards/" ++ boardId ++ "/members") no_options ;;
  lift (prop response "data").

Definition shareBoardWithUser (boardId : string) (data : Obj) : M JsVal :=
  fetchApi ("/boards/" ++ boardId ++ "/members") (with_body "POST" (JObj data)).

Definition updateBoardMember (boardId memberId : string) (data : Obj) : M JsVal :=
  fetchApi ("/boards/" ++ boardId ++ "/members/" ++ memberId) (with_body "PATCH" (JObj data)).

Definition removeBoardMember (boardId memberId : string) : M unit :=
  void (fetchApi ("/boards/" ++ boardId ++ "/members/" ++ memberId) (with_method "DELETE")).

(** *** Webhooks *)

Definition createWebhook (data : Obj) : M JsVal :=
  fetchApi "/webhooks" (with_body "POST" (JObj data)).

Definition getWebhooks : M JsVal :=
  response <- fetchApi "/webhooks" no_options ;;
  lift (prop response "data").

Definition updateWebhook (webhookId : string) (data : Obj) : M JsVal :=
  fetchApi ("/webhooks/" ++ webhookId) (with_body "PATCH" (JObj data)).

Definition deleteWebhook (webhookId : string) : M unit :=
  void (fetchApi ("/webhooks/" ++ webhookId) (with_method "DELETE")).

(** *** Search *)

Definition searchItems (boardId query : string) : M JsVal :=
  response <- fetchApi ("/boards/" ++ boardId ++ "/items") (with_params [("query", query)]) ;;
  lift (prop response "data").

(** *** The method table

    One constructor per public method of [MiroClient], with its arguments;
    [invoke] calls the method.  A [void] result is [undefined], an array
    result a [JArr]. *)

Inductive Call : Type :=
| GetBoards (query teamId : option string)
| GetBoard (boardId : string)
| CreateBoard (data : Obj)
| UpdateBoard (boardId : string) (data : Obj)
| CopyBoard (boardId : string) (data : Obj)
| DeleteBoard (boardId : string)
| GetBoardItems (boardId : string) (options : option BoardItemsOptions)
| GetItem (boardId itemId : string)
| UpdateItem (boardId itemId : string) (data : JsVal)
| DeleteItem (boardId itemId : string)
| CreateStickyNote (boardId : string) (data : Obj)
| UpdateStickyNote (boardId itemId : string) (data : JsVal)
| CreateShape (boardId : string) (data : Obj)
| UpdateShape (boardId itemId : string) (data : JsVal)
| CreateText (boardId : string) (data : Obj)
| UpdateText (boardId itemId : string) (data : JsVal)
| CreateCard (boardId : string) (data : Obj)
| UpdateCard (boardId itemId : string) (data : JsVal)
| CreateConnector (boardId : string) (data : ConnectorData)
| UpdateConnector (boardId itemId : string) (data : JsVal)
| CreateFrame (boardId : string) (data : Obj)
| UpdateFrame (boardId itemId : string) (data : JsVal)
| GetFrames (boardId : string)
| GetItemsInFrame (boardId frameId : string)
| CreateImage (boardId : string) (data : Obj)
| UpdateImage (boardId itemId : string) (data : JsVal)
| CreateDocument (boardId : string) (data : Obj)
| UpdateDocument (boardId itemId : string) (data : JsVal)
| CreateEmbed (boardId : string) (data : Obj)
| UpdateEmbed (boardId itemId : string) (data : JsVal)
| BulkCreateItems (boardId : string) (items : list CreateItemData)
| BulkUpdateItems (boardId : string) (updates : list ItemUpdate)
| BulkDeleteItems (boardId : string) (itemIds : list string)
| BulkCreateConnectors (boardId : string) (connectors : list ConnectorData)
| GetTags (boardId : string)
| CreateTag (boardId : string) (data : Obj)
| UpdateTag (boardId tagId : string) (data : Obj)
| DeleteTag (boardId tagId : string)
| AttachTagToItem (boardId itemId tagId : string)
| RemoveTagFromItem (boardId itemId tagId : string)
| CreateGroup (boardId : string) (data : Obj)
| UpdateGroup (boardId groupId : string) (data : JsVal)
| DeleteGroup (boardId groupId : string)
| GetBoardMembers (boardId : string)
| ShareBoardWithUser (boardId : string) (data : Obj)
| UpdateBoardMember (boardId memberId : string) (data : Obj)
| RemoveBoardMember (boardId memberId : string)
| CreateWebhook (data : Obj)
| GetWebhooks
| UpdateWebhook (webhookId : string) (data : Obj)
| DeleteWebhook (webhookId : string)
| SearchItems (boardId query : string).

Definition returns_void (m : M unit) : M JsVal := m ;;; ret JUndefined.
Definition returns_array (m : M (list JsVal)) : M JsVal := xs <- m ;; ret (JArr xs).

Definition invoke (c : Call) : M JsVal :=
  match c with
  | GetBoards query teamId => getBoards query teamId
  | GetBoard boardId => getBoard boardId
  | CreateBoard data => createBoard data
  | UpdateBoard boardId data => updateBoard boardId data
  | CopyBoard boardId data => copyBoard boardId data
  | DeleteBoard boardId => returns_void (deleteBoard boardId)
  | GetBoardItems boardId options => getBoardItems boardId options
  | GetItem boardId itemId => getItem boardId itemId
  | UpdateItem boardId itemId data => updateItem boardId itemId data
  | DeleteItem boardId itemId => returns_void (deleteItem boardId itemId)
  | CreateStickyNote boardId data => createStickyNote boardId data
  | UpdateStickyNote boardId itemId data => updateStickyNote boardId itemId data
  | CreateShape boardId data => createShape boardId data
  | UpdateShape boardId itemId data => updateShape boardId itemId data
  | CreateText boardId data => createText boardId data
  | UpdateText boardId itemId data => updateText boardId itemId data
  | CreateCard boardId data => createCard boardId data
  | UpdateCard boardId itemId data => updateCard boardId itemId data
  | CreateConnector boardId data => createConnector boardId data
  | UpdateConnector boardId itemId data => updateConnector boardId itemId data
  | CreateFrame boardId data => createFrame boardId data
  | UpdateFrame boardId itemId data => updateFrame boardId itemId data
  | GetFrames boardId => getFrames boardId
  | GetItemsInFrame boardId frameId => getItemsInFrame boardId frameId
  | CreateImage boardId data => createImage boardId data
  | UpdateImage boardId itemId data => updateImage boardId itemId data
  | CreateDocument boardId data => createDocument boardId data
  | UpdateDocument boardId itemId data => updateDocument boardId itemId data
  | CreateEmbed boardId data => createEmbed boardId data
  | UpdateEmbed boardId itemId data => updateEmbed boardId itemId data
  | BulkCreateItems boardId items => returns_array (bulkCreateItems boardId items)
  | BulkUpdateItems boardId updates => returns_array (bulkUpdateItems boardId updates)
  | BulkDeleteItems boardId itemIds => returns_void (bulkDeleteItems boardId itemIds)
  | BulkCreateConnectors boardId connectors =>
      returns_array (bulkCreateConnectors boardId connectors)
  | GetTags boardId => getTags boardId
  | CreateTag boardId data => createTag boardId data
  | UpdateTag boardId tagId data => updateTag boardId tagId data
  | DeleteTag boardId tagId => returns_void (deleteTag boardId tagId)
  | AttachTagToItem boardId itemId tagId => returns_void (attachTagToItem boardId itemId tagId)
  | RemoveTagFromItem boardId itemId tagId =>
      returns_void (removeTagFromItem boardId itemId tagId)
  | CreateGroup boardId data => createGroup boardId data
  | UpdateGroup boardId groupId data => updateGroup boardId groupId data
  | DeleteGroup boardId groupId => returns_void (deleteGroup boardId groupId)
  | GetBoardMembers boardId => getBoardMembers boardId
  | ShareBoardWithUser boardId data => shareBoardWithUser boardId data
  | UpdateBoardMember boardId memberId data => updateBoardMember boardId memberId data
  | RemoveBoardMember boardId memberId => returns_void (removeBoardMember boardId memberId)
  | CreateWebhook data => createWebhook data
  | GetWebhooks => getWebhooks
  | UpdateWebhook webhookId data => updateWebhook webhookId data
  | DeleteWebhook webhookId => returns_void (deleteWebhook webhookId)
  | SearchItems boardId query => searchItems boardId query
  end.

(** The four bulk operations. *)
Definition is_bulk (c : Call) : bool :=
  match c with
  | BulkCreateItems _ _ | BulkUpdateItems _ _
  | BulkDeleteItems _ _ | BulkCreateConnectors _ _ => true
  | _ => false
  end.

(** The methods that issue their request with [method: 'DELETE']. *)
Definition is_delete (c : Call) : bool :=
  match c with
  | DeleteBoard _ | DeleteItem _ _ | DeleteTag _ _ | RemoveTagFromItem _ _ _
  | DeleteGroup _ _ | RemoveBoardMember _ _ | DeleteWebhook _ => true
  | _ => false
  end.

(** *** The tool handler ([src/index.ts])

    The handler registered for [CallToolRequestSchema], applied to the
    module's [miroClient] (here [this]).  A [ToolCall] is a request whose
    [arguments] have the members and types the tool's [inputSchema] declares;
    an optional member left out is [None].  What [console.log] prints is not
    part of the world; what [console.error] prints is.  The handler takes
    [JSON.stringify(value, null, 2)] as its first argument,
    [JSON_stringify_pretty]; [None] stands for [undefined]. *)

(** The value returned to the protocol: [{ content: [{ type: "text", text }] }],
    with [isError: true] when the handler caught an error. *)
Record ToolResult : Type := mkResult {
  result_text : option string;
  result_isError : bool
}.

Definition text_result (text : string) : ToolResult := mkResult (Some text) false.

(** [`${v}`] for a JSON value. *)
Fixpoint to_string (v : JsVal) : string :=
  match v with
  | JUndefined => "undefined"
  | JNull => "null"
  | JBool b => if b then "true" else "false"
  | JNum n => num_to_string n
  | JStr s => s
  | JArr elems =>
      (fix join (l : list JsVal) : string :=
         match l with
         | [] => ""
         | x :: l' =>
             match x with JUndefined | JNull => "" | _ => to_string x end
             ++ match l' with [] => "" | _ :: _ => "," ++ join l' end
         end) elems
  | JObj _ => "[object Object]"
  end.

(** [`${v.k}`] *)
Definition show_prop (v : JsVal) (k : string) : M string :=
  x <- lift (prop v k) ;; ret (to_string x).

(** [v.length]; the length of a string is that of its ASCII spelling. *)
Definition js_length (v : JsVal) : JsError + JsVal :=
  match v with
  | JArr elems => inr (JNum (Z.of_nat (length elems)))
  | JStr s => inr (JNum (Z.of_nat (String.length s)))
  | _ => prop v "length"
  end.

(** [v.map(f).join('\n')] with [f] a template that may throw. *)
Fixpoint map_lines (f : JsVal -> JsError + string) (elems : list JsVal)
  : JsError + list string :=
  match elems with
  | [] => inr []
  | x :: elems' =>
      match f x with
      | inl e => inl e
      | inr line =>
          match map_lines f elems' with
          | inl e => inl e
          | inr lines => inr (line :: lines)
          end
      end
  end.

Definition newline : string := String (ascii_of_nat 10) EmptyString.
Definition quote : string := String (ascii_of_nat 34) EmptyString.

(** [`- ${b.name} (ID: ${b.id})`] *)
Definition board_line (b : JsVal) : JsError + string :=
  match prop b "name" with
  | inl e => inl e
  | inr name =>
      match prop b "id" with
      | inl e => inl e
      | inr id => inr ("- " ++ to_string name ++ " (ID: " ++ to_string id ++ ")")
      end
  end.

(** A destructuring default: [{ x = 0 }]. *)
Definition default_to {A : Type} (d : A) (o : option A) : A :=
  match o with Some a => a | None => d end.

(** [{ x, y, origin: 'center' }] *)
Definition position_at (x y : Z) : JsVal :=
  JObj [("x", JNum x); ("y", JNum y); ("origin", JStr "center")].

Inductive ToolCall : Type :=
| list_boards (query teamId : option string)
| get_board (boardId : string)
| create_board (name : string) (description teamId : option string)
| update_board (boardId : string) (name description : option string)
| copy_board (boardId name : string) (description teamId : option string)
| delete_board (boardId : string)
| get_board_items (boardId : string) (type parentItemId : option string) (limit : option Z)
| get_item (boardId itemId : string)
| update_item (boardId itemId : string) (data : JsVal)
| delete_item (boardId itemId : string)
| create_sticky_note (boardId content : string) (color : option string) (x y : option Z)
| create_text (boardId content : string) (x y fontSize : option Z) (color : option string)
| create_shape (boardId shape : string) (content : option string)
    (x y width height : option Z) (fillColor borderColor : option string)
| create_card (boardId : string) (title description : option string) (x y : option Z)
| create_connector (boardId startItemId endItemId : string) (caption : option string)
| create_frame (boardId : string) (title : option string) (x y width height : option Z)
| create_image (boardId url : string) (x y width height : option Z)
| create_document (boardId url : string) (title : option string) (x y : option Z)
| create_embed (boardId url : string) (x y width height : option Z)
| bulk_create_items (boardId : string) (items : list CreateItemData)
| bulk_update_items (boardId : string) (updates : list ItemUpdate)
| bulk_delete_items (boardId : string) (itemIds : list string)
| bulk_create_connectors (boardId : string) (connectors : list ConnectorData)
| get_frames (boardId : string)
| get_items_in_frame (boardId frameId : string)
| get_tags (boardId : string)
| create_tag (boardId title : string) (fillColor : option string)
| attach_tag_to_item (boardId itemId tagId : string)
| remove_tag_from_item (boardId itemId tagId : string)
| create_group (boardId : string) (itemIds : list string) (title : option string)
| get_board_members (boardId : string)
| share_board_with_user (boardId email role : string) (message : option string)
| search_items (boardId query : string)
| create_webhook (callbackUrl boardId : string) (events : list string)
| get_webhooks
| unknown_tool (name : string).

(** The names the [switch] has a case for. *)
Definition tool_names : list string :=
  ["list_boards"; "get_board"; "create_board"; "update_board"; "copy_board";
   "delete_board"; "get_board_items"; "get_item"; "update_item"; "delete_item";
   "create_sticky_note"; "create_text"; "create_shape"; "create_card";
   "create_connector"; "create_frame"; "create_image"; "create_document";
   "create_embed"; "bulk_create_items"; "bulk_update_items"; "bulk_delete_items";
   "bulk_create_connectors"; "get_frames"; "get_items_in_frame"; "get_tags";
   "create_tag"; "attach_tag_to_item"; "remove_tag_from_item"; "create_group";
   "get_board_members"; "share_board_with_user"; "search_items"; "create_webhook";
   "get_webhooks"].

(** [text: JSON.stringify(value, null, 2)] *)
Definition pretty_result (JSON_stringify_pretty : JsVal -> option string)
  (value : JsVal) : ToolResult :=
  mkResult (JSON_stringify_pretty value) false.

(** The [switch (request.params.name)] inside the handler's [try]. *)
Definition CallTool_switch (JSON_stringify_pretty : JsVal -> option string)
  (request : ToolCall) : M ToolResult :=
  let pretty_result := pretty_result JSON_stringify_pretty in
  match request with
  | list_boards query teamId =>
      boards <- getBoards query teamId ;;
      count <- lift (js_length boards) ;;
      lines <- (match boards with
                | JArr elems => lift (map_lines board_line elems)
                | _ => throw (TypeError "boards.map is not a function")
                end) ;;
      ret (text_result ("Found " ++ to_string count ++ " board(s):" ++ newline
                        ++ String.concat newline lines))
  | get_board boardId =>
      board <- getBoard boardId ;;
      ret (pretty_result board)
  | create_board name description teamId =>
      board <- createBoard [("name", JStr name);
                            ("description", of_ostr description);
                            ("teamId", of_ostr teamId)] ;;
      board_name <- show_prop board "name" ;;
      board_id <- show_prop board "id" ;;
      ret (text_result ("Created board " ++ quote ++ board_name ++ quote
                        ++ " with ID: " ++ board_id))
  | update_board boardId name description =>
      board <- updateBoard boardId [("name", of_ostr name);
                                    ("description", of_ostr description)] ;;
      board_name <- show_prop board "name" ;;
      board_id <- show_prop board "id" ;;
      ret (text_result ("Updated board " ++ quote ++ board_name ++ quote
                        ++ " (ID: " ++ board_id ++ ")"))
  | copy_board boardId name description teamId =>
      board <- copyBoard boardId [("name", JStr name);
                                  ("description", of_ostr description);
                                  ("teamId", of_ostr teamId)] ;;
      board_name <- show_prop board "name" ;;
      board_id <- show_prop board "id" ;;
      ret (text_result ("Copied board to " ++ quote ++ board_name ++ quote
                        ++ " with ID: " ++ board_id))
  | delete_board boardId =>
      deleteBoard boardId ;;;
      ret (text_result ("Deleted board " ++ boardId))
  | get_board_items boardId type parentItemId limit =>
      items <- getBoardItems boardId (Some (mkItemsOptions type parentItemId None limit)) ;;
      ret (pretty_result items)
  | get_item boardId itemId =>
      item <- getItem boardId itemId ;;
      ret (pretty_result item)
  | update_item boardId itemId data =>
      updateItem boardId itemId data ;;;
      ret (text_result ("Updated item " ++ itemId))
  | delete_item boardId itemId =>
      deleteItem boardId itemId ;;;
      ret (text_result ("Deleted item " ++ itemId))
  | create_sticky_note boardId content color x y =>
      try_catch
        (stickyNote <- createStickyNote boardId [
           ("content", JStr content);
           ("color", JStr (default_to "yellow" color));
           ("position", position_at (default_to 0%Z x) (default_to 0%Z y))] ;;
         id <- show_prop stickyNote "id" ;;
         ret (text_result ("Created sticky note with ID: " ++ id)))
        (fun error => console_error "Error creating sticky note:" error ;;; throw error)
  | create_text boardId content x y fontSize color =>
      try_catch
        (textItem <- createText boardId [
           ("content", JStr content);
           ("position", position_at (default_to 0%Z x) (default_to 0%Z y));
           ("style", JObj [("fontSize", JNum (default_to 14%Z fontSize));
                           ("color", JStr (default_to "#000000" color))])] ;;
         id <- show_prop textItem "id" ;;
         ret (text_result ("Created text item with ID: " ++ id)))
        (fun error => console_error "Error creating text:" error ;;; throw error)
  | create_shape boardId shape content x y width height fillColor borderColor =>
      try_catch
        (item <- createShape boardId [
           ("shape", JStr shape);
           ("content", of_ostr content);
           ("position", position_at (default_to 0%Z x) (default_to 0%Z y));
           ("geometry", JObj [("width", JNum (default_to 200%Z width));
                              ("height", JNum (default_to 200%Z height))]);
           ("style", JObj [("fillColor", JStr (default_to "#ffffff" fillColor));
                           ("borderColor", JStr (default_to "#000000" borderColor))])] ;;
         id <- show_prop item "id" ;;
         ret (text_result ("Created " ++ shape ++ " shape with ID: " ++ id)))
        (fun error => console_error "Error creating shape:" error ;;; throw error)
  | create_card boardId title description x y =>
      item <- createCard boardId [
        ("title", of_ostr title);
        ("description", of_ostr description);
        ("position", position_at (default_to 0%Z x) (default_to 0%Z y))] ;;
      id <- show_prop item "id" ;;
      ret (text_result ("Created card with ID: " ++ id))
  | create_connector boardId startItemId endItemId caption =>
      item <- createConnector boardId (mkConnector startItemId endItemId caption JUndefined) ;;
      id <- show_prop item "id" ;;
      ret (text_result ("Created connector with ID: " ++ id))
  | create_frame boardId title x y width height =>
      item <- createFrame boardId [
        ("title", of_ostr title);
        ("position", position_at (default_to 0%Z x) (default_to 0%Z y));
        ("geometry", JObj [("width", JNum (default_to 400%Z width));
                           ("height", JNum (default_to 300%Z height))])] ;;
      id <- show_prop item "id" ;;
      ret (text_result ("Created frame with ID: " ++ id))
  | create_image boardId url x y width height =>
      item <- createImage boardId [
        ("url", JStr url);
        ("position", position_at (default_to 0%Z x) (default_to 0%Z y));
        ("geometry", JObj [("width", JNum (default_to 200%Z width));
                           ("height", JNum (default_to 200%Z height))])] ;;
      id <- show_prop item "id" ;;
      ret (text_result ("Created image with ID: " ++ id))
  | create_document boardId url title x y =>
      item <- createDocument boardId [
        ("url", JStr url);
        ("title", of_ostr title);
        ("position", position_at (default_to 0%Z x) (default_to 0%Z y))] ;;
      id <- show_prop item "id" ;;
      ret (text_result ("Created document with ID: " ++ id))
  | create_embed boardId url x y width height =>
      item <- createEmbed boardId [
        ("url", JStr url);
        ("position", position_at (default_to 0%Z x) (default_to 0%Z y));
        ("geometry", JObj [("width", JNum (default_to 320%Z width));
                           ("height", JNum (default_to 180%Z height))])] ;;
      id <- show_prop item "id" ;;
      ret (text_result ("Created embed with ID: " ++ id))
  | bulk_create_items boardId items =>
      createdItems <- bulkCreateItems boardId items ;;
      ret (text_result ("Created " ++ num_to_string (Z.of_nat (length createdItems))
                        ++ " items on board " ++ boardId))
  | bulk_update_items boardId updates =>
      updatedItems <- bulkUpdateItems boardId updates ;;
      ret (text_result ("Updated " ++ num_to_string (Z.of_nat (length updatedItems))
                        ++ " items on board " ++ boardId))
  | bulk_delete_items boardId itemIds =>
      bulkDeleteItems boardId itemIds ;;;
      ret (text_result ("Deleted " ++ num_to_string (Z.of_nat (length itemIds))
                        ++ " items from board " ++ boardId))
  | bulk_create_connectors boardId connectors =>
      createdConnectors <- bulkCreateConnectors boardId connectors ;;
      ret (text_result ("Created " ++ num_to_string (Z.of_nat (length createdConnectors))
                        ++ " connectors on board " ++ boardId))
  | get_frames boardId =>
      frames <- getFrames boardId ;;
      ret (pretty_result frames)
  | get_items_in_frame boardId frameId =>
      items <- getItemsInFrame boardId frameId ;;
      ret (pretty_result items)
  | get_tags boardId =>
      tags <- getTags boardId ;;
      ret (pretty_result tags)
  | create_tag boardId title fillColor =>
      tag <- createTag boardId [("title", JStr title);
                                ("fillColor", JStr (default_to "red" fillColor))] ;;
      id <- show_prop tag "id" ;;
      ret (text_result ("Created tag " ++ quote ++ title ++ quote ++ " with ID: " ++ id))
  | attach_tag_to_item boardId itemId tagId =>
      attachTagToItem boardId itemId tagId ;;;
      ret (text_result ("Attached tag " ++ tagId ++ " to item " ++ itemId))
  | remove_tag_from_item boardId itemId tagId =>
      removeTagFromItem boardId itemId tagId ;;;
      ret (text_result ("Removed tag " ++ tagId ++ " from item " ++ itemId))
  | create_group boardId itemIds title =>
      group <- createGroup boardId [("itemIds", JArr (map JStr itemIds));
                                    ("title", of_ostr title)] ;;
      id <- show_prop group "id" ;;
      ret (text_result ("Created group with ID: " ++ id))
  | get_board_members boardId =>
      members <- getBoardMembers boardId ;;
      ret (pretty_result members)
  | share_board_with_user boardId email role message =>
      shareBoardWithUser boardId [("email", JStr email);
                                  ("role", JStr role);
                                  ("message", of_ostr message)] ;;;
      ret (text_result ("Shared board with " ++ email ++ " as " ++ role))
  | search_items boardId query =>
      items <- searchItems boardId query ;;
      count <- lift (js_length items) ;;
      ret (text_result ("Found " ++ to_string count ++ " items matching "
                        ++ quote ++ query ++ quote ++ ":" ++ newline
                        ++ match JSON_stringify_pretty items with
                           | Some s => s
                           | None => "undefined"
                           end))
  | create_webhook callbackUrl boardId events =>
      webhook <- createWebhook [("callbackUrl", JStr callbackUrl);
                                ("boardId", JStr boardId);
                                ("events", JArr (map JStr events))] ;;
      id <- show_prop webhook "id" ;;
      ret (text_result ("Created webhook with ID: " ++ id))
  | get_webhooks =>
      webhooks <- getWebhooks ;;
      ret (pretty_result webhooks)
  | unknown_tool name =>
      throw (Error ("Unknown tool: " ++ name))
  end.

(** [`Error: ${error instanceof Error ? error.message : 'Unknown error'}`];
    every value thrown here is an [Error]. *)
Definition error_result (error : JsError) : ToolResult :=
  mkResult (Some ("Error: " ++ err_message error)) true.

(** The handler: the [switch] inside [try], and the [catch] that turns an
    error into a result. *)
Definition CallTool (JSON_stringify_pretty : JsVal -> option string)
  (request : ToolCall) : M ToolResult :=
  try_catch
    (CallTool_switch JSON_stringify_pretty request)
    (fun error =>
       console_error "Error handling tool call:" error ;;;
       ret (error_result error)).

Definition is_bulk_tool (request : ToolCall) : bool :=
  match request with
  | bulk_create_items _ _ | bulk_update_items _ _
  | bulk_delete_items _ _ | bulk_create_connectors _ _ => true
  | _ => false
  end.

(** The creation tools that answer [`Created <what> with ID: ${item.id}`],
    and their [<what>]. *)
Definition created_what (request : ToolCall) : option string :=
  match request with
  | create_sticky_note _ _ _ _ _ => Some "sticky note"
  | create_text _ _ _ _ _ _ => Some "text item"
  | create_card _ _ _ _ _ => Some "card"
  | create_connector _ _ _ _ => Some "connector"
  | create_frame _ _ _ _ _ _ => Some "frame"
  | create_image _ _ _ _ _ _ => Some "image"
  | create_document _ _ _ _ _ => Some "document"
  | create_embed _ _ _ _ _ _ => Some "embed"
  | create_group _ _ _ => Some "group"
  | create_webhook _ _ _ => Some "webhook"
  | _ => None
  end.

(** ** Specification vocabulary *)

(** [Succeeds f w xs rs w']: starting in [w], the calls [f x] for the
    elements [x] of [xs], made one after the other in the order of [xs], all
    return; [rs] lists what they return, element by element, and [w'] is the
    world after the last one. *)
Inductive Succeeds {A B : Type} (f : A -> M B)
  : World -> list A -> list B -> World -> Prop :=
| Succeeds_nil : forall w, Succeeds f w [] [] w
| Succeeds_cons : forall w x r w1 xs rs w2,
    f x w = (Ok r, w1) ->
    Succeeds f w1 xs rs w2 ->
    Succeeds f w (x :: xs) (r :: rs) w2.

(** The shape shared by the loops that collect results: [try] the call and
    push its result, [catch] and log under the element's label. *)
Definition collect {A : Type} (f : A -> M JsVal) (label : A -> string)
  (x : A) (acc : list JsVal) : M (list JsVal) :=
  try_catch (r <- f x ;; ret (acc ++ [r])%list)
            (fun error => console_error (label x) error ;;; ret acc).

(** The loop of [bulkDeleteItems] collects nothing. *)
Definition attempt {A : Type} (f : A -> M unit) (label : A -> string)
  (x : A) (_ : unit) : M unit :=
  try_catch (f x) (fun error => console_error (label x) error).

Definition create_label (item : CreateItemData) : string :=
  "Failed to create item of type " ++ item_type item ++ ":".
Definition update_label (update : ItemUpdate) : string :=
  "Failed to update item " ++ update_id update ++ ":".
Definition delete_label (itemId : string) : string :=
  "Failed to delete item " ++ itemId ++ ":".
Definition connector_label (connector : ConnectorData) : string :=
  "Failed to create connector from " ++ startItemId connector
  ++ " to " ++ endItemId connector ++ ":".

(** A successful response that is neither 204 nor announced as JSON. *)
Definition plain_success (response : Response) : Prop :=
  (200 <= status response < 300)%Z
  /\ status response <> 204%Z
  /\ (content_type response = None
      \/ exists c, content_type response = Some c
                   /\ includes c "application/json" = false).

(** [Propagates m]: the requests [m] issues extend the trace, and as soon as
    the service answers one of them with a status outside 2xx, [m] issues no
    further request and throws the API error built from that response. *)
Definition Propagates {A : Type} (m : M A) : Prop :=
  forall w res w',
    m w = (res, w') ->
    exists new,
      calls w' = (calls w ++ new)%list
      /\ forall pre req post response,
          new = (pre ++ req :: post)%list ->
          remote (calls w ++ pre) req = inr response ->
          ~ (200 <= status response < 300)%Z ->
          res = Throw (api_error response) /\ post = [].

(** [Returns P m]: [m] returns normally in every world, with a value in [P]. *)
Definition Returns {A : Type} (P : A -> Prop) (m : M A) : Prop :=
  forall w, exists a w', m w = (Ok a, w') /\ P a.

(** The number of elements a bulk operation is given; 0 for the others. *)
Definition batch_size (c : Call) : nat :=
  match c with
  | BulkCreateItems _ items => length items
  | BulkUpdateItems _ updates => length updates
  | BulkDeleteItems _ itemIds => length itemIds
  | BulkCreateConnectors _ connectors => length connectors
  | _ => 0
  end.

(** The item types with an endpoint of their own, and the path segment of
    each. *)
Definition typed_collections : list (string * string) :=
  [("sticky_note", "sticky_notes"); ("shape", "shapes"); ("text", "texts");
   ("card", "cards"); ("connector", "connectors"); ("frame", "frames");
   ("image", "images"); ("document", "documents"); ("embed", "embeds")].

(** The item types [bulkCreateItems] has a case for. *)
Definition creatable : list string :=
  ["sticky_note"; "text"; "shape"; "card"; "frame"; "image"; "document"; "embed"].

(** [Outcomes f label w xs os w']: starting in [w], the calls [f x] for the
    elements of [xs] are made in order; [os] lists how each one ended.  After
    a call that throws, the world is the one in which the loop's handler has
    logged the error under [label x]. *)
Inductive Outcomes {A B : Type} (f : A -> M B) (label : A -> string)
  : World -> list A -> list (Result B) -> World -> Prop :=
| Outcomes_nil : forall w, Outcomes f label w [] [] w
| Outcomes_ok : forall w x r w1 xs os w2,
    f x w = (Ok r, w1) ->
    Outcomes f label w1 xs os w2 ->
    Outcomes f label w (x :: xs) (Ok r :: os) w2
| Outcomes_throw : forall w x e w1 xs os w2,
    f x w = (Throw e, w1) ->
    Outcomes f label (logged w1 (label x) e) xs os w2 ->
    Outcomes f label w (x :: xs) (Throw e :: os) w2.

(** The values of the outcomes that returned, in order. *)
Fixpoint successes {B : Type} (os : list (Result B)) : list B :=
  match os with
  | [] => []
  | Ok r :: os' => r :: successes os'
  | Throw _ :: os' => successes os'
  end.

(** The console lines of the outcomes that threw, in order. *)
Fixpoint failure_log {A B : Type} (label : A -> string) (xs : list A)
  (os : list (Result B)) : list LogEntry :=
  match xs, os with
  | x :: xs', Throw e :: os' => mkLog (label x) e :: failure_log label xs' os'
  | _ :: xs', Ok _ :: os' => failure_log label xs' os'
  | _, _ => []
  end.

(** [Issues P m]: whatever [m] does, the requests it hands to [fetch] extend
    the trace by a list satisfying [P]. *)
Definition Issues {A : Type} (P : list Request -> Prop) (m : M A) : Prop :=
  forall w res w',
    m w = (res, w') -> exists new, calls w' = (calls w ++ new)%list /\ P new.

(** [Quiet m]: [m] writes nothing to the console. *)
Definition Quiet {A : Type} (m : M A) : Prop :=
  forall w res w', m w = (res, w') -> console w' = console w.

(** [Silent m]: [m] leaves the world alone. *)
Definition Silent {A : Type} (m : M A) : Prop :=
  forall w res w', m w = (res, w') -> w' = w.

(** [OneRequest m]: [m] hands exactly one request to [fetch] and does nothing
    else to the world. *)
Definition OneRequest {A : Type} (m : M A) : Prop :=
  forall w res w', m w = (res, w') -> exists req, w' = sent w req.

(** What makes a call to [fetch] end [fetchApi] with an error: the promise is
    rejected, or the response is not [ok]. *)
Definition fetch_failure (outcome : JsError + Response) : option JsError :=
  match outcome with
  | inl e => Some e
  | inr response => if ok response then None else Some (api_error response)
  end.

(** [FailFast m]: as soon as one of the requests of [m] fails, [m] issues no
    further request and throws the error of that failure. *)
Definition FailFast {A : Type} (m : M A) : Prop :=
  forall w res w',
    m w = (res, w') ->
    exists new,
      calls w' = (calls w ++ new)%list
      /\ forall pre req post e,
          new = (pre ++ req :: post)%list ->
          fetch_failure (remote (calls w ++ pre) req) = Some e ->
          res = Throw e /\ post = [].

(** What every request of this client looks like: it goes to the Miro API
    and carries the client's token and the JSON content type. *)
Definition well_formed (req : Request) : Prop :=
  String.prefix "https://api.miro.com/v2/" (req_url req) = true
  /\ req_headers req
     = [("Authorization", "Bearer " ++ token this); ("Content-Type", "application/json")].

Definition is_update_item (c : Call) : bool :=
  match c with UpdateItem _ _ _ => true | _ => false end.

(** [Collects f label xs w run]: [run] is the outcome of a bulk operation that
    collects: it returned normally, with the results of the calls that
    succeeded, in input order, and logged one console line per call that
    threw, in input order. *)
Definition Collects {A : Type} (f : A -> M JsVal) (label : A -> string)
  (xs : list A) (w : World) (run : Result (list JsVal) * World) : Prop :=
  exists os w',
    Outcomes f label w xs os w'
    /\ run = (Ok (successes os), w')
    /\ console w' = (console w ++ failure_log label xs os)%list
    /\ length (successes os) + length (failure_log label xs os) = length xs.

(** An optional string filter with the empty string taken for none, and an
    optional number with zero taken for none. *)
Definition nonempty (o : option string) : option string :=
  match o with Some s => if str_truthy s then Some s else None | None => None end.

Definition nonzero (o : option Z) : option Z :=
  match o with Some n => if (n =? 0)%Z then None else Some n | None => None end.

Definition with_parent (parent : JsVal) (item : CreateItemData) : CreateItemData :=
  mkItem (item_type item) (item_data item) (item_style item)
         (item_position item) (item_geometry item) parent.

(** ** The monad and the loops *)

Lemma for_of_app {A S : Type} (body : A -> S -> M S) (xs ys : list A) :
  forall s w,
    for_of (xs ++ ys) body s w =
    match for_of xs body s w with
    | (Ok s', w') => for_of ys body s' w'
    | (Throw e, w') => (Throw e, w')
    end.
Proof.
  induction xs as [|x xs IH]; intros s w; simpl.
  - reflexivity.
  - unfold bind. destruct (body x s w) as [[s'|e] w']; [apply IH | reflexivity].
Qed.

Lemma collect_ok {A : Type} (f : A -> M JsVal) label (x : A) acc w r w1 :
  f x w = (Ok r, w1) -> collect f label x acc w = (Ok (acc ++ [r])%list, w1).
Proof. intros H. unfold collect, try_catch, bind. rewrite H. reflexivity. Qed.

Lemma collect_throw {A : Type} (f : A -> M JsVal) label (x : A) acc w e w1 :
  f x w = (Throw e, w1) -> collect f label x acc w = (Ok acc, logged w1 (label x) e).
Proof. intros H. unfold collect, try_catch, bind. rewrite H. reflexivity. Qed.

Lemma attempt_ok {A : Type} (f : A -> M unit) label (x : A) u w r w1 :
  f x w = (Ok r, w1) -> attempt f label x u w = (Ok tt, w1).
Proof. intros H. unfold attempt, try_catch. rewrite H. destruct r. reflexivity. Qed.

Lemma attempt_throw {A : Type} (f : A -> M unit) label (x : A) u w e w1 :
  f x w = (Throw e, w1) -> attempt f label x u w = (Ok tt, logged w1 (label x) e).
Proof. intros H. unfold attempt, try_catch. rewrite H. reflexivity. Qed.

Lemma Succeeds_length {A B : Type} (f : A -> M B) w xs rs w' :
  Succeeds f w xs rs w' -> length rs = length xs.
Proof. induction 1; simpl; congruence. Qed.

(** When every call succeeds the collecting loop returns the accumulator
    followed by the results, in order. *)
Lemma for_of_collect_all {A : Type} (f : A -> M JsVal) label w xs rs w' :
  Succeeds f w xs rs w' ->
  forall acc, for_of xs (collect f label) acc w = (Ok (acc ++ rs)%list, w').
Proof.
  induction 1 as [w | w x r w1 xs rs w2 Hx _ IH]; intros acc; simpl.
  - rewrite app_nil_r. reflexivity.
  - unfold bind. rewrite (collect_ok f label x acc w r w1 Hx).
    rewrite IH, <- app_assoc. reflexivity.
Qed.

Lemma for_of_attempt_all {A : Type} (f : A -> M unit) label w xs rs w' :
  Succeeds f w xs rs w' ->
  for_of xs (attempt f label) tt w = (Ok tt, w').
Proof.
  induction 1 as [w | w x r w1 xs rs w2 Hx _ IH]; simpl.
  - reflexivity.
  - unfold bind. rewrite (attempt_ok f label x tt w r w1 Hx). exact IH.
Qed.

(** One failing call between two runs of successes: its element is left out
    and the loop goes on. *)
Lemma for_of_collect_one_failure {A : Type} (f : A -> M JsVal) label
  w pre rs1 w1 x e w2 post rs2 w3 :
  Succeeds f w pre rs1 w1 ->
  f x w1 = (Throw e, w2) ->
  Succeeds f (logged w2 (label x) e) post rs2 w3 ->
  for_of (pre ++ x :: post) (collect f label) [] w = (Ok (rs1 ++ rs2)%list, w3).
Proof.
  intros Hpre Hx Hpost.
  rewrite for_of_app, (for_of_collect_all f label _ _ _ _ Hpre). simpl.
  unfold bind. rewrite (collect_throw f label x rs1 w1 e w2 Hx).
  apply (for_of_collect_all f label _ _ _ _ Hpost).
Qed.

Lemma for_of_attempt_one_failure {A : Type} (f : A -> M unit) label
  w pre rs1 w1 x e w2 post rs2 w3 :
  Succeeds f w pre rs1 w1 ->
  f x w1 = (Throw e, w2) ->
  Succeeds f (logged w2 (label x) e) post rs2 w3 ->
  for_of (pre ++ x :: post) (attempt f label) tt w = (Ok tt, w3).
Proof.
  intros Hpre Hx Hpost.
  rewrite for_of_app, (for_of_attempt_all f label _ _ _ _ Hpre). simpl.
  unfold bind. rewrite (attempt_throw f label x tt w1 e w2 Hx).
  apply (for_of_attempt_all f label _ _ _ _ Hpost).
Qed.

Lemma limit_exceeded (n : nat) : 20 < n -> (20 <? n)%nat = true.
Proof. intros H. apply Nat.ltb_lt. exact H. Qed.

Lemma limit_respected (n : nat) : n <= 20 -> (20 <? n)%nat = false.
Proof. intros H. apply Nat.ltb_ge. exact H. Qed.

(** ** The batch size limit *)

(** C1. A batch of more than 20 elements makes each of the four bulk
    operations throw its fixed size-limit error at once: the world is
    unchanged, so no request was handed to [fetch], nothing was logged and no
    prefix of the batch was processed. *)
Theorem bulk_over_limit_rejected (boardId : string) (w : World) :
  (forall items, 20 < length items ->
     bulkCreateItems boardId items w =
     (Throw (Error "Cannot create more than 20 items in a single bulk operation"), w))
  /\ (forall updates, 20 < length updates ->
     bulkUpdateItems boardId updates w =
     (Throw (Error "Cannot update more than 20 items in a single bulk operation"), w))
  /\ (forall itemIds, 20 < length itemIds ->
     bulkDeleteItems boardId itemIds w =
     (Throw (Error "Cannot delete more than 20 items in a single bulk operation"), w))
  /\ (forall connectors, 20 < length connectors ->
     bulkCreateConnectors boardId connectors w =
     (Throw (Error "Cannot create more than 20 connectors at once"), w)).
Proof.
  split; [|split; [|split]]; intros xs Hlen.
  - unfold bulkCreateItems. rewrite (limit_exceeded _ Hlen). reflexivity.
  - unfold bulkUpdateItems. rewrite (limit_exceeded _ Hlen). reflexivity.
  - unfold bulkDeleteItems. rewrite (limit_exceeded _ Hlen). reflexivity.
  - unfold bulkCreateConnectors. rewrite (limit_exceeded _ Hlen). reflexivity.
Qed.

(** C4. On the empty batch every bulk operation returns at once, with an
    empty result list (nothing, for the delete), and leaves the world as it
    found it: no request is handed to [fetch]. *)
Theorem bulk_empty_batch (boardId : string) (w : World) :
  bulkCreateItems boardId [] w = (Ok [], w)
  /\ bulkUpdateItems boardId [] w = (Ok [], w)
  /\ bulkDeleteItems boardId [] w = (Ok tt, w)
  /\ bulkCreateConnectors boardId [] w = (Ok [], w).
Proof. repeat split. Qed.

(** ** Batches within the limit *)

(** C3. A batch of at most 20 elements whose per-element calls all succeed:
    the operation returns exactly the list of the calls' results, one per
    input element and in the order of the input.  (The bulk delete returns
    nothing; it completes after the last call.) *)
Theorem bulk_all_succeed (boardId : string) :
  (forall items rs w w',
     length items <= 20 ->
     Succeeds (bulkCreateItems_switch boardId) w items rs w' ->
     bulkCreateItems boardId items w = (Ok rs, w') /\ length rs = length items)
  /\ (forall updates rs w w',
     length updates <= 20 ->
     Succeeds (fun u => updateItem boardId (update_id u) (update_data u)) w updates rs w' ->
     bulkUpdateItems boardId updates w = (Ok rs, w') /\ length rs = length updates)
  /\ (forall connectors rs w w',
     length connectors <= 20 ->
     Succeeds (createConnector boardId) w connectors rs w' ->
     bulkCreateConnectors boardId connectors w = (Ok rs, w')
     /\ length rs = length connectors)
  /\ (forall itemIds rs w w',
     length itemIds <= 20 ->
     Succeeds (deleteItem boardId) w itemIds rs w' ->
     bulkDeleteItems boardId itemIds w = (Ok tt, w')).
Proof.
  split; [|split; [|split]]; intros xs rs w w' Hlen Hall;
    try (split; [|apply (Succeeds_length _ _ _ _ _ Hall)]).
  - unfold bulkCreateItems. rewrite (limit_respected _ Hlen).
    exact (for_of_collect_all (bulkCreateItems_switch boardId) create_label
             _ _ _ _ Hall []).
  - unfold bulkUpdateItems. rewrite (limit_respected _ Hlen).
    exact (for_of_collect_all
             (fun u => updateItem boardId (update_id u) (update_data u)) update_label
             _ _ _ _ Hall []).
  - unfold bulkCreateConnectors. rewrite (limit_respected _ Hlen).
    exact (for_of_collect_all (createConnector boardId) connector_label
             _ _ _ _ Hall []).
  - unfold bulkDeleteItems. rewrite (limit_respected _ Hlen).
    exact (for_of_attempt_all (deleteItem boardId) delete_label _ _ _ _ Hall).
Qed.

(** C2. A batch of at most 20 elements in which the call for exactly one
    element [x] throws while the calls before it ([pre]) and after it
    ([post]) succeed: the operation returns normally (the error reaches the
    console, not the caller), the elements after [x] are still processed, and
    the result is the results of [pre] followed by those of [post], in input
    order, with nothing standing in for [x]; it is one shorter than the
    input. *)
Theorem bulk_one_failure_dropped (boardId : string) :
  (forall pre x post rs1 rs2 e w w1 w2 w3,
     length (pre ++ x :: post) <= 20 ->
     Succeeds (bulkCreateItems_switch boardId) w pre rs1 w1 ->
     bulkCreateItems_switch boardId x w1 = (Throw e, w2) ->
     Succeeds (bulkCreateItems_switch boardId) (logged w2 (create_label x) e) post rs2 w3 ->
     bulkCreateItems boardId (pre ++ x :: post) w = (Ok (rs1 ++ rs2)%list, w3)
     /\ length (rs1 ++ rs2) = length (pre ++ x :: post) - 1)
  /\ (forall pre x post rs1 rs2 e w w1 w2 w3,
     length (pre ++ x :: post) <= 20 ->
     Succeeds (fun u => updateItem boardId (update_id u) (update_data u)) w pre rs1 w1 ->
     updateItem boardId (update_id x) (update_data x) w1 = (Throw e, w2) ->
     Succeeds (fun u => updateItem boardId (update_id u) (update_data u))
       (logged w2 (update_label x) e) post rs2 w3 ->
     bulkUpdateItems boardId (pre ++ x :: post) w = (Ok (rs1 ++ rs2)%list, w3)
     /\ length (rs1 ++ rs2) = length (pre ++ x :: post) - 1)
  /\ (forall pre x post rs1 rs2 e w w1 w2 w3,
     length (pre ++ x :: post) <= 20 ->
     Succeeds (createConnector boardId) w pre rs1 w1 ->
     createConnector boardId x w1 = (Throw e, w2) ->
     Succeeds (createConnector boardId) (logged w2 (connector_label x) e) post rs2 w3 ->
     bulkCreateConnectors boardId (pre ++ x :: post) w = (Ok (rs1 ++ rs2)%list, w3)
     /\ length (rs1 ++ rs2) = length (pre ++ x :: post) - 1)
  /\ (forall pre x post rs1 rs2 e w w1 w2 w3,
     length (pre ++ x :: post) <= 20 ->
     Succeeds (deleteItem boardId) w pre rs1 w1 ->
     deleteItem boardId x w1 = (Throw e, w2) ->
     Succeeds (deleteItem boardId) (logged w2 (delete_label x) e) post rs2 w3 ->
     bulkDeleteItems boardId (pre ++ x :: post) w = (Ok tt, w3)).
Proof.
  assert (Hcount : forall (A B : Type) (f : A -> M B) w pre rs1 w1 (x : A) w2 post rs2 w3,
             Succeeds f w pre rs1 w1 -> Succeeds f w2 post rs2 w3 ->
             length (rs1 ++ rs2) = length (pre ++ x :: post) - 1).
  { intros A B f w pre rs1 w1 x w2 post rs2 w3 H1 H2.
    rewrite !length_app, (Succeeds_length _ _ _ _ _ H1), (Succeeds_length _ _ _ _ _ H2).
    simpl. lia. }
  split; [|split; [|split]]; intros pre x post rs1 rs2 e w w1 w2 w3 Hlen Hpre Hx Hpost;
    try (split; [|apply (Hcount _ _ _ _ _ _ _ x _ _ _ _ Hpre Hpost)]).
  - unfold bulkCreateItems. rewrite (limit_respected _ Hlen).
    exact (for_of_collect_one_failure (bulkCreateItems_switch boardId) create_label
             _ _ _ _ _ _ _ _ _ _ Hpre Hx Hpost).
  - unfold bulkUpdateItems. rewrite (limit_respected _ Hlen).
    exact (for_of_collect_one_failure
             (fun u => updateItem boardId (update_id u) (update_data u)) update_label
             _ _ _ _ _ _ _ _ _ _ Hpre Hx Hpost).
  - unfold bulkCreateConnectors. rewrite (limit_respected _ Hlen).
    exact (for_of_collect_one_failure (createConnector boardId) connector_label
             _ _ _ _ _ _ _ _ _ _ Hpre Hx Hpost).
  - unfold bulkDeleteItems. rewrite (limit_respected _ Hlen).
    exact (for_of_attempt_one_failure (deleteItem boardId) delete_label
             _ _ _ _ _ _ _ _ _ _ Hpre Hx Hpost).
Qed.

(** ** [fetchApi] *)

Lemma ok_iff (response : Response) :
  ok response = true <-> (200 <= status response < 300)%Z.
Proof. unfold ok. rewrite andb_true_iff, Z.leb_le, Z.ltb_lt. tauto. Qed.

Lemma not_ok (response : Response) :
  ~ (200 <= status response < 300)%Z -> ok response = false.
Proof.
  intros H. destruct (ok response) eqn:E; [|reflexivity].
  apply ok_iff in E. contradiction.
Qed.

Lemma fetchApi_rejected path options w e :
  remote (calls w) (request_of path options) = inl e ->
  fetchApi path options w = (Throw e, sent w (request_of path options)).
Proof. intros H. unfold fetchApi, bind, fetch. rewrite H. reflexivity. Qed.

Lemma fetchApi_not_ok path options w response :
  remote (calls w) (request_of path options) = inr response ->
  ok response = false ->
  fetchApi path options w = (Throw (api_error response), sent w (request_of path options)).
Proof. intros H Hok. unfold fetchApi, bind, fetch. rewrite H, Hok. reflexivity. Qed.

Lemma fetchApi_no_content path options w response :
  remote (calls w) (request_of path options) = inr response ->
  ok response = true ->
  status response = 204%Z \/ method options = Some "DELETE" ->
  fetchApi path options w = (Ok (JObj []), sent w (request_of path options)).
Proof.
  intros H Hok Hcase. unfold fetchApi, bind, fetch. rewrite H, Hok. simpl.
  destruct Hcase as [H204 | Hdel].
  - rewrite H204. reflexivity.
  - rewrite Hdel. simpl. rewrite orb_true_r. reflexivity.
Qed.

Lemma fetchApi_not_json path options w response :
  remote (calls w) (request_of path options) = inr response ->
  ok response = true ->
  (content_type response = None
   \/ exists c, content_type response = Some c /\ includes c "application/json" = false) ->
  fetchApi path options w = (Ok (JObj []), sent w (request_of path options)).
Proof.
  intros H Hok Hct. unfold fetchApi, bind, fetch. rewrite H, Hok. simpl.
  destruct ((status response =? 204)%Z
            || match method options with
               | Some m => String.eqb m "DELETE"
               | None => false
               end); [reflexivity|].
  destruct Hct as [Hnone | [c [Hsome Hinc]]].
  - rewrite Hnone. reflexivity.
  - rewrite Hsome, Hinc, andb_false_r. reflexivity.
Qed.

(** Whatever happens, [fetchApi] hands exactly one request to [fetch]. *)
Lemma fetchApi_sent path options w res w' :
  fetchApi path options w = (res, w') -> w' = sent w (request_of path options).
Proof.
  unfold fetchApi, bind, fetch.
  destruct (remote (calls w) (request_of path options)) as [e | response].
  - intros H. inversion H. reflexivity.
  - destruct (negb (ok response)); [intros H; inversion H; reflexivity|].
    destruct ((status response =? 204)%Z || _); [intros H; inversion H; reflexivity|].
    destruct (ostr_truthy (content_type response) && _);
      [|intros H; inversion H; reflexivity].
    unfold lift. destruct (JSON_parse (text response));
      intros H; inversion H; reflexivity.
Qed.

(** C6. A successful response whose status is 204, or to a request issued
    with method DELETE, makes [fetchApi] return the empty object; the body is
    not looked at ([JSON_parse] is arbitrary here).  Hence each deleting
    method issues one DELETE request and returns normally on any 2xx answer,
    204 or 200, whatever the body. *)
Theorem delete_or_204_gives_empty_success :
  (forall path options w response,
     remote (calls w) (request_of path options) = inr response ->
     (200 <= status response < 300)%Z ->
     status response = 204%Z \/ method options = Some "DELETE" ->
     fetchApi path options w = (Ok (JObj []), sent w (request_of path options)))
  /\ (forall c w,
     is_delete c = true ->
     exists req,
       req_method req = "DELETE"
       /\ forall response,
           remote (calls w) req = inr response ->
           (200 <= status response < 300)%Z ->
           invoke c w = (Ok JUndefined, sent w req)).
Proof.
  split.
  - intros path options w response H Hok Hcase.
    apply (fetchApi_no_content path options w response H (proj2 (ok_iff _) Hok) Hcase).
  - intros c w Hc.
    destruct c; try discriminate Hc; simpl;
      unfold deleteBoard, deleteItem, deleteTag, removeTagFromItem, deleteGroup,
             removeBoardMember, deleteWebhook, returns_void, void;
      match goal with
      | |- context [fetchApi ?p ?o] =>
          exists (request_of p o); split; [reflexivity|];
          intros response H Hok; unfold bind at 1 2;
          rewrite (fetchApi_no_content p o w response H (proj2 (ok_iff _) Hok)
                     (or_intror eq_refl));
          reflexivity
      end.
Qed.

(** ** Error responses *)

Create HintDb client discriminated.

#[local] Hint Unfold
  getBoards getBoard createBoard updateBoard copyBoard deleteBoard
  getBoardItems getItem updateItem deleteItem
  createStickyNote updateStickyNote createShape updateShape createText updateText
  createCard updateCard createConnector updateConnector
  createFrame updateFrame getFrames getItemsInFrame
  createImage updateImage createDocument updateDocument createEmbed updateEmbed
  getTags createTag updateTag deleteTag attachTagToItem removeTagFromItem
  createGroup updateGroup deleteGroup
  getBoardMembers shareBoardWithUser updateBoardMember removeBoardMember
  createWebhook getWebhooks updateWebhook deleteWebhook searchItems
  returns_void returns_array void : client.

Lemma Propagates_ret {A : Type} (a : A) : Propagates (ret a).
Proof.
  intros w res w' H. inversion H; subst. exists []. split.
  - rewrite app_nil_r. reflexivity.
  - intros pre req post response Hsplit. destruct pre; discriminate Hsplit.
Qed.

Lemma Propagates_lift {A : Type} (r : JsError + A) : Propagates (lift r).
Proof.
  intros w res w' H. destruct r; inversion H; subst; exists []; split;
    try (rewrite app_nil_r; reflexivity);
    intros pre req post response Hsplit; destruct pre; discriminate Hsplit.
Qed.

Lemma Propagates_fetchApi path options : Propagates (fetchApi path options).
Proof.
  intros w res w' H. exists [request_of path options]. split.
  - rewrite (fetchApi_sent _ _ _ _ _ H). reflexivity.
  - intros pre req post response Hsplit Hremote Hstatus.
    destruct pre as [|p pre].
    + inversion Hsplit; subst. rewrite app_nil_r in Hremote.
      rewrite (fetchApi_not_ok _ _ _ _ Hremote (not_ok _ Hstatus)) in H.
      inversion H. split; reflexivity.
    + inversion Hsplit as [[Hp Hrest]]. destruct pre; discriminate Hrest.
Qed.

Lemma Propagates_bind {A B : Type} (m : M A) (k : A -> M B) :
  Propagates m -> (forall a, Propagates (k a)) -> Propagates (bind m k).
Proof.
  intros Hm Hk w res w' H. unfold bind in H.
  destruct (m w) as [[a | e] w1] eqn:Em.
  - destruct (Hm _ _ _ Em) as [new1 [Hcalls1 Hfirst]].
    destruct (Hk a _ _ _ H) as [new2 [Hcalls2 Hsecond]].
    exists (new1 ++ new2)%list. split.
    + rewrite Hcalls2, Hcalls1, app_assoc. reflexivity.
    + intros pre req post response Hsplit Hremote Hstatus.
      apply app_eq_app in Hsplit.
      destruct Hsplit as [l [[Hnew1 Hrest] | [Hpre Hnew2]]].
      * destruct l as [|r0 l].
        -- simpl in Hrest. rewrite app_nil_r in Hnew1. subst new1.
           apply (Hsecond [] req post response (eq_sym Hrest)); [|exact Hstatus].
           rewrite app_nil_r, Hcalls1. exact Hremote.
        -- simpl in Hrest. inversion Hrest; subst r0.
           destruct (Hfirst pre req l response Hnew1 Hremote Hstatus) as [Habs _].
           discriminate Habs.
      * apply (Hsecond l req post response Hnew2); [|exact Hstatus].
        rewrite Hcalls1, <- app_assoc, <- Hpre. exact Hremote.
  - inversion H; subst.
    destruct (Hm _ _ _ Em) as [new1 [Hcalls1 Hfirst]].
    exists new1. split; [exact Hcalls1|].
    intros pre req post response Hsplit Hremote Hstatus.
    destruct (Hfirst pre req post response Hsplit Hremote Hstatus) as [He Hpost].
    inversion He. split; [reflexivity | exact Hpost].
Qed.

#[local] Hint Resolve Propagates_ret Propagates_lift Propagates_fetchApi Propagates_bind
  : client.

(** C7. A response whose status lies outside 200..299 makes [fetchApi] throw
    an error whose message spells out the status code, the status text and
    the raw body.  Every method other than the four bulk operations lets that
    error through unchanged: as soon as one of its requests is answered
    outside 2xx, the method issues no further request and throws exactly that
    error. *)
Theorem api_error_raised_and_propagated :
  (forall path options w response,
     remote (calls w) (request_of path options) = inr response ->
     ~ (200 <= status response < 300)%Z ->
     fetchApi path options w
     = (Throw (api_error response), sent w (request_of path options))
     /\ api_error response
        = Error ("Miro API error: " ++ num_to_string (status response) ++ " "
                 ++ statusText response ++ " - " ++ text response))
  /\ (forall c, is_bulk c = false -> Propagates (invoke c)).
Proof.
  split.
  - intros path options w response H Hstatus. split; [|reflexivity].
    apply (fetchApi_not_ok _ _ _ _ H (not_ok _ Hstatus)).
  - intros c Hc. destruct c; try discriminate Hc; simpl;
      autounfold with client; cbv zeta; auto 8 with client.
Qed.

(** ** Successful responses without JSON *)

Lemma Returns_ret {A : Type} (P : A -> Prop) (a : A) : P a -> Returns P (ret a).
Proof. intros H w. exists a, w. split; [reflexivity | exact H]. Qed.

Lemma Returns_weaken {A : Type} (P Q : A -> Prop) (m : M A) :
  Returns P m -> (forall a, P a -> Q a) -> Returns Q m.
Proof.
  intros Hm HPQ w. destruct (Hm w) as [a [w' [H HP]]].
  exists a, w'. split; [exact H | apply HPQ; exact HP].
Qed.

Lemma Returns_bind {A B : Type} (P : A -> Prop) (Q : B -> Prop) (m : M A) (k : A -> M B) :
  Returns P m -> (forall a, P a -> Returns Q (k a)) -> Returns Q (bind m k).
Proof.
  intros Hm Hk w. destruct (Hm w) as [a [w1 [H HP]]].
  destruct (Hk a HP w1) as [b [w2 [H2 HQ]]].
  exists b, w2. split; [|exact HQ]. unfold bind. rewrite H. exact H2.
Qed.

Lemma Returns_console_error message error :
  Returns (fun _ => True) (console_error message error).
Proof. intros w. exists tt, (logged w message error). split; [reflexivity | exact I]. Qed.

(** A [try]/[catch] whose handler returns always returns. *)
Lemma Returns_try_catch {A : Type} (m : M A) (handler : JsError -> M A) :
  (forall e, Returns (fun _ => True) (handler e)) ->
  Returns (fun _ => True) (try_catch m handler).
Proof.
  intros Hh w. unfold try_catch. destruct (m w) as [[a | e] w1].
  - exists a, w1. split; [reflexivity | exact I].
  - apply Hh.
Qed.

Lemma Returns_for_of {A S : Type} (body : A -> S -> M S) (xs : list A) :
  (forall x s, Returns (fun _ => True) (body x s)) ->
  forall s, Returns (fun _ => True) (for_of xs body s).
Proof.
  intros Hbody. induction xs as [|x xs IH]; intros s; simpl.
  - apply Returns_ret. exact I.
  - apply (Returns_bind (fun _ => True)); [apply Hbody | intros s' _; apply IH].
Qed.

Section PlainService.

Hypothesis remote_plain :
  forall history req,
    exists response, remote history req = inr response /\ plain_success response.

Lemma Returns_fetchApi path options :
  Returns (fun v => v = JObj []) (fetchApi path options).
Proof.
  intros w.
  destruct (remote_plain (calls w) (request_of path options))
    as [response [H [Hok [_ Hct]]]].
  exists (JObj []), (sent w (request_of path options)). split; [|reflexivity].
  apply (fetchApi_not_json _ _ _ _ H (proj2 (ok_iff _) Hok) Hct).
Qed.

Ltac returns :=
  lazymatch goal with
  | |- Returns _ (bind (fetchApi _ _) _) =>
      eapply Returns_bind; [apply Returns_fetchApi | intros ? ->; cbn; returns]
  | |- Returns _ (bind _ _) =>
      eapply (Returns_bind (fun _ => True)); [returns | intros ? _; returns]
  | |- Returns _ (fetchApi _ _) =>
      eapply Returns_weaken; [apply Returns_fetchApi | intros; exact I]
  | |- Returns _ (ret _) => apply Returns_ret; exact I
  | |- Returns _ (for_of _ _ _) => apply Returns_for_of; intros; returns
  | |- Returns _ (try_catch _ _) => apply Returns_try_catch; intros; returns
  | |- Returns _ (console_error _ _) => apply Returns_console_error
  end.

Lemma invoke_returns (c : Call) :
  batch_size c <= 20 -> Returns (fun _ => True) (invoke c).
Proof.
  intros Hsize.
  destruct c; simpl in Hsize |- *;
    try (unfold bulkCreateItems, bulkUpdateItems, bulkDeleteItems, bulkCreateConnectors;
         rewrite (limit_respected _ Hsize));
    autounfold with client; unfold bulkCreateItems_body; cbv zeta; returns.
Qed.

(** Against such a service the hypothesis of a fully succeeding batch is met
    by every list of connectors: one result per connector comes back. *)
Lemma bulkCreateConnectors_complete boardId connectors w :
  length connectors <= 20 ->
  exists rs w',
    Succeeds (createConnector boardId) w connectors rs w'
    /\ bulkCreateConnectors boardId connectors w = (Ok rs, w')
    /\ length rs = length connectors.
Proof.
  intros Hlen.
  assert (Hall : forall xs w0,
             exists rs w', Succeeds (createConnector boardId) w0 xs rs w').
  { induction xs as [|x xs IH]; intros w0.
    - exists [], w0. apply Succeeds_nil.
    - assert (Hret : Returns (fun v => v = JObj []) (createConnector boardId x)).
      { unfold createConnector. cbv zeta. apply Returns_fetchApi. }
      destruct (Hret w0) as [r [w1 [Hx _]]].
      destruct (IH w1) as [rs [w2 Hrest]].
      exists (r :: rs), w2. apply (Succeeds_cons _ _ _ _ _ _ _ _ Hx Hrest). }
  destruct (Hall connectors w) as [rs [w' Hs]].
  exists rs, w'. split; [exact Hs|]. split; [|apply (Succeeds_length _ _ _ _ _ Hs)].
  unfold bulkCreateConnectors. rewrite (limit_respected _ Hlen).
  exact (for_of_collect_all (createConnector boardId) connector_label _ _ _ _ Hs []).
Qed.

End PlainService.

(** C10. A successful response that is not 204, to a request not issued with
    method DELETE, whose Content-Type is absent or does not contain
    [application/json], makes [fetchApi] return the empty object without
    parsing the body.  So, against a service that only ever answers this
    way, every method of the client returns normally whenever it gets as far
    as a request; the one way left for a method to throw is the size check of
    a bulk operation, which rejects a batch of more than 20 before any
    request is made, hence before any response exists. *)
Theorem non_json_success_gives_empty_object :
  (forall path options w response,
     remote (calls w) (request_of path options) = inr response ->
     (200 <= status response < 300)%Z ->
     status response <> 204%Z ->
     method options <> Some "DELETE" ->
     (content_type response = None
      \/ exists c, content_type response = Some c
                   /\ includes c "application/json" = false) ->
     fetchApi path options w = (Ok (JObj []), sent w (request_of path options)))
  /\ ((forall history req,
         exists response, remote history req = inr response /\ plain_success response) ->
      forall c w,
        (batch_size c <= 20 -> exists v w', invoke c w = (Ok v, w'))
        /\ (20 < batch_size c -> exists e, invoke c w = (Throw e, w))).
Proof.
  split.
  - intros path options w response H Hok _ _ Hct.
    apply (fetchApi_not_json _ _ _ _ H (proj2 (ok_iff _) Hok) Hct).
  - intros Hplain c w. split; intros Hsize.
    + destruct (invoke_returns Hplain c Hsize w) as [v [w' [H _]]].
      exists v, w'. exact H.
    + destruct c; simpl in Hsize; try (exfalso; lia); simpl;
        unfold returns_array, returns_void, bind,
               bulkCreateItems, bulkUpdateItems, bulkDeleteItems, bulkCreateConnectors;
        rewrite (limit_exceeded _ Hsize); eexists; reflexivity.
Qed.

(** ** Routing of the generic update *)

Lemma is_str_true (v : JsVal) (lit : string) : is_str v lit = true -> v = JStr lit.
Proof.
  destruct v; simpl; try discriminate.
  intros H. apply String.eqb_eq in H. rewrite H. reflexivity.
Qed.

Lemma append_cancel_l (a x y : string) : a ++ x = a ++ y -> x = y.
Proof.
  induction a as [|ch a IH]; simpl; intros H.
  - exact H.
  - inversion H. apply IH. assumption.
Qed.

Lemma update_endpoint_typed boardId itemId t seg :
  In (t, seg) typed_collections ->
  update_endpoint boardId itemId (JStr t) = "/boards/" ++ boardId ++ "/" ++ seg ++ "/" ++ itemId.
Proof.
  unfold typed_collections. simpl. intros H.
  repeat (destruct H as [H | H]; [inversion H; subst; reflexivity|]).
  contradiction.
Qed.

Lemma update_endpoint_generic boardId itemId type :
  (forall t, type = JStr t -> ~ In t (map fst typed_collections)) ->
  update_endpoint boardId itemId type = "/boards/" ++ boardId ++ "/items/" ++ itemId.
Proof.
  intros H. unfold update_endpoint.
  repeat match goal with
         | |- context [is_str type ?lit] =>
             let E := fresh "E" in
             destruct (is_str type lit) eqn:E;
             [exfalso; apply is_str_true in E; apply (H lit E); simpl; tauto|]
         end.
  reflexivity.
Qed.

(** C5. [updateItem] begins with a read of the item (a GET on the generic
    item path, with no body); if the read fails its error is the result and
    nothing else is sent.  Once the read has returned an item with type
    discriminant [type], exactly one more request follows: a PATCH carrying
    [data], sent to the endpoint of the item's type for the nine types with
    an endpoint of their own, and to the generic item endpoint for every other
    discriminant.  For a shape, the PATCH goes to the shape endpoint, whose
    URL differs from that of the generic endpoint. *)
Theorem updateItem_routes_by_type (boardId itemId : string) (data : JsVal) (w : World) :
  let item_path := "/boards/" ++ boardId ++ "/items/" ++ itemId in
  let read := request_of item_path no_options in
  (req_method read = "GET" /\ req_body read = None
   /\ getItem boardId itemId w = fetchApi item_path no_options w
   /\ forall res w', updateItem boardId itemId data w = (res, w') ->
        exists rest, calls w' = (calls w ++ read :: rest)%list)
  /\ (forall e w1,
        getItem boardId itemId w = (Throw e, w1) ->
        updateItem boardId itemId data w = (Throw e, sent w read))
  /\ (forall item w1 type,
        getItem boardId itemId w = (Ok item, w1) ->
        prop item "type" = inr type ->
        let patch :=
          request_of (update_endpoint boardId itemId type) (with_body "PATCH" data) in
        req_method patch = "PATCH"
        /\ updateItem boardId itemId data w
           = fetchApi (update_endpoint boardId itemId type) (with_body "PATCH" data)
               (sent w read)
        /\ forall res w', updateItem boardId itemId data w = (res, w') ->
             calls w' = (calls w ++ [read; patch])%list)
  /\ (forall t seg,
        In (t, seg) typed_collections ->
        update_endpoint boardId itemId (JStr t)
        = "/boards/" ++ boardId ++ "/" ++ seg ++ "/" ++ itemId)
  /\ (forall type,
        (forall t, type = JStr t -> ~ In t (map fst typed_collections)) ->
        update_endpoint boardId itemId type = item_path)
  /\ (update_endpoint boardId itemId (JStr "shape")
      = "/boards/" ++ boardId ++ "/shapes/" ++ itemId
      /\ req_url (request_of (update_endpoint boardId itemId (JStr "shape"))
                    (with_body "PATCH" data))
         <> req_url (request_of item_path (with_body "PATCH" data))).
Proof.
  intros item_path read.
  split; [|split; [|split; [|split; [|split]]]].
  - split; [reflexivity|]. split; [reflexivity|]. split; [reflexivity|].
    intros res w'. unfold updateItem, getItem. unfold bind at 1.
    fold item_path.
    destruct (fetchApi item_path no_options w) as [[item | e] w1] eqn:Eread;
      apply fetchApi_sent in Eread; fold read in Eread; subst w1.
    + unfold bind. destruct (prop item "type") as [e | type]; simpl.
      * intros H. inversion H. exists []. reflexivity.
      * destruct (fetchApi (update_endpoint boardId itemId type)
                    (with_body "PATCH" data) (sent w read)) as [r w2] eqn:Epatch.
        apply fetchApi_sent in Epatch. subst w2.
        intros H. assert (Hw : w' = sent (sent w read)
                     (request_of (update_endpoint boardId itemId type)
                        (with_body "PATCH" data))).
        { destruct r; inversion H; reflexivity. }
        rewrite Hw. simpl. rewrite <- app_assoc. eexists. reflexivity.
    + intros H. inversion H. exists []. reflexivity.
  - intros e w1 Hread. unfold updateItem, bind. rewrite Hread.
    unfold getItem in Hread. apply fetchApi_sent in Hread. rewrite Hread. reflexivity.
  - intros item w1 type Hread Htype patch.
    assert (Hw1 : w1 = sent w read).
    { unfold getItem in Hread. apply (fetchApi_sent _ _ _ _ _ Hread). }
    subst w1.
    assert (Hrun : updateItem boardId itemId data w
                   = fetchApi (update_endpoint boardId itemId type)
                       (with_body "PATCH" data) (sent w read)).
    { unfold updateItem. unfold bind at 1. rewrite Hread.
      unfold bind. rewrite Htype. reflexivity. }
    split; [reflexivity|]. split; [exact Hrun|].
    intros res w' H. rewrite Hrun in H. apply fetchApi_sent in H.
    rewrite H. simpl. rewrite <- app_assoc. reflexivity.
  - apply update_endpoint_typed.
  - apply update_endpoint_generic.
  - split; [reflexivity|].
    unfold request_of, item_path. simpl.
    intros H. inversion H as [Hurl].
    apply (append_cancel_l boardId) in Hurl. discriminate Hurl.
Qed.

(** ** Item types the bulk creation has no case for *)

Lemma bulkCreateItems_switch_default boardId item w :
  ~ In (item_type item) creatable ->
  bulkCreateItems_switch boardId item w
  = (Throw (Error ("Unsupported item type: " ++ item_type item)), w).
Proof.
  intros H. unfold bulkCreateItems_switch. cbv zeta.
  repeat match goal with
         | |- context [String.eqb (item_type item) ?lit] =>
             let E := fresh "E" in
             destruct (String.eqb (item_type item) lit) eqn:E;
             [exfalso; apply String.eqb_eq in E; apply H; rewrite E; simpl; tauto|]
         end.
  reflexivity.
Qed.

(** C9. An element of type ['connector'] or ['app_card'] reaches the
    [default] branch of the [switch] in [bulkCreateItems], which throws
    [Unsupported item type] without any request being made.  The loop's
    handler logs the error and leaves the result list as it was; the batch
    then goes on with the elements that follow, and no request was issued for
    the element, to a generic endpoint or any other. *)
Theorem unsupported_item_type_dropped (boardId : string) (item : CreateItemData) (w : World) :
  item_type item = "connector" \/ item_type item = "app_card" ->
  let error := Error ("Unsupported item type: " ++ item_type item) in
  let w_logged := logged w ("Failed to create item of type " ++ item_type item ++ ":") error in
  bulkCreateItems_switch boardId item w = (Throw error, w)
  /\ (forall createdItems,
        bulkCreateItems_body boardId item createdItems w = (Ok createdItems, w_logged))
  /\ calls w_logged = calls w
  /\ (forall pre post w0 createdItems,
        length (pre ++ item :: post) <= 20 ->
        for_of pre (bulkCreateItems_body boardId) [] w0 = (Ok createdItems, w) ->
        bulkCreateItems boardId (pre ++ item :: post) w0
        = for_of post (bulkCreateItems_body boardId) createdItems w_logged).
Proof.
  intros Htype error w_logged.
  assert (Hswitch : bulkCreateItems_switch boardId item w = (Throw error, w)).
  { apply bulkCreateItems_switch_default.
    destruct Htype as [E | E]; rewrite E; simpl; intros H;
      repeat (destruct H as [H | H]; [discriminate H|]); exact H. }
  assert (Hbody : forall createdItems,
             bulkCreateItems_body boardId item createdItems w = (Ok createdItems, w_logged)).
  { intros createdItems. unfold bulkCreateItems_body, try_catch, bind.
    rewrite Hswitch. reflexivity. }
  split; [exact Hswitch|]. split; [exact Hbody|]. split; [reflexivity|].
  intros pre post w0 createdItems Hlen Hpre.
  unfold bulkCreateItems. rewrite (limit_respected _ Hlen).
  rewrite for_of_app, Hpre. simpl. unfold bind. rewrite Hbody. reflexivity.
Qed.

(** ** The JSON path of [fetchApi] *)

Lemma includes_nonempty (c needle : string) :
  includes c needle = true -> needle <> "" -> str_truthy c = true.
Proof.
  destruct c; [|reflexivity].
  simpl. destruct needle; [intros _ H; contradiction H; reflexivity | discriminate].
Qed.

(** X1. A successful response that is not 204, to a request not issued with
    method DELETE, whose Content-Type contains [application/json], is decoded:
    [fetchApi] returns what [JSON.parse] makes of the body, and throws the
    parser's error when the body is not JSON. *)
Theorem fetchApi_decodes_json path options w response :
  remote (calls w) (request_of path options) = inr response ->
  (200 <= status response < 300)%Z ->
  status response <> 204%Z ->
  method options <> Some "DELETE" ->
  (exists c, content_type response = Some c /\ includes c "application/json" = true) ->
  fetchApi path options w
  = (match JSON_parse (text response) with inl e => Throw e | inr v => Ok v end,
     sent w (request_of path options)).
Proof.
  intros H Hok H204 Hdel [c [Hct Hinc]].
  unfold fetchApi, bind, fetch. rewrite H, (proj2 (ok_iff _) Hok). simpl.
  assert (E204 : (status response =? 204)%Z = false) by (apply Z.eqb_neq; exact H204).
  assert (Edel : match method options with
                 | Some m => String.eqb m "DELETE"
                 | None => false
                 end = false).
  { destruct (method options) as [m|]; [|reflexivity].
    apply String.eqb_neq. intros E. apply Hdel. rewrite E. reflexivity. }
  rewrite E204, Edel, Hct, Hinc. simpl.
  rewrite (includes_nonempty c "application/json" Hinc); [|discriminate]. simpl.
  unfold lift. destruct (JSON_parse (text response)); reflexivity.
Qed.

(** ** Failing requests end a method *)

Lemma fetchApi_failure path options w e :
  fetch_failure (remote (calls w) (request_of path options)) = Some e ->
  fetchApi path options w = (Throw e, sent w (request_of path options)).
Proof.
  unfold fetch_failure.
  destruct (remote (calls w) (request_of path options)) as [e0 | response] eqn:H.
  - intros E. inversion E; subst. apply (fetchApi_rejected _ _ _ _ H).
  - destruct (ok response) eqn:Hok; [discriminate|].
    intros E. inversion E; subst. apply (fetchApi_not_ok _ _ _ _ H Hok).
Qed.

Lemma FailFast_ret {A : Type} (a : A) : FailFast (ret a).
Proof.
  intros w res w' H. inversion H; subst. exists []. split.
  - rewrite app_nil_r. reflexivity.
  - intros pre req post e Hsplit. destruct pre; discriminate Hsplit.
Qed.

Lemma FailFast_lift {A : Type} (r : JsError + A) : FailFast (lift r).
Proof.
  intros w res w' H. destruct r; inversion H; subst; exists []; split;
    try (rewrite app_nil_r; reflexivity);
    intros pre req post e0 Hsplit; destruct pre; discriminate Hsplit.
Qed.

Lemma FailFast_fetchApi path options : FailFast (fetchApi path options).
Proof.
  intros w res w' H. exists [request_of path options]. split.
  - rewrite (fetchApi_sent _ _ _ _ _ H). reflexivity.
  - intros pre req post e Hsplit Hfail.
    destruct pre as [|p pre].
    + inversion Hsplit; subst. rewrite app_nil_r in Hfail.
      rewrite (fetchApi_failure _ _ _ _ Hfail) in H.
      inversion H. split; reflexivity.
    + inversion Hsplit as [[Hp Hrest]]. destruct pre; discriminate Hrest.
Qed.

Lemma FailFast_bind {A B : Type} (m : M A) (k : A -> M B) :
  FailFast m -> (forall a, FailFast (k a)) -> FailFast (bind m k).
Proof.
  intros Hm Hk w res w' H. unfold bind in H.
  destruct (m w) as [[a | e] w1] eqn:Em.
  - destruct (Hm _ _ _ Em) as [new1 [Hcalls1 Hfirst]].
    destruct (Hk a _ _ _ H) as [new2 [Hcalls2 Hsecond]].
    exists (new1 ++ new2)%list. split.
    + rewrite Hcalls2, Hcalls1, app_assoc. reflexivity.
    + intros pre req post e Hsplit Hfail.
      apply app_eq_app in Hsplit.
      destruct Hsplit as [l [[Hnew1 Hrest] | [Hpre Hnew2]]].
      * destruct l as [|r0 l].
        -- simpl in Hrest. rewrite app_nil_r in Hnew1. subst new1.
           apply (Hsecond [] req post e (eq_sym Hrest)).
           rewrite app_nil_r, Hcalls1. exact Hfail.
        -- simpl in Hrest. inversion Hrest; subst r0.
           destruct (Hfirst pre req l e Hnew1 Hfail) as [Habs _].
           discriminate Habs.
      * apply (Hsecond l req post e Hnew2).
        rewrite Hcalls1, <- app_assoc, <- Hpre. exact Hfail.
  - inversion H; subst.
    destruct (Hm _ _ _ Em) as [new1 [Hcalls1 Hfirst]].
    exists new1. split; [exact Hcalls1|].
    intros pre req post e0 Hsplit Hfail.
    destruct (Hfirst pre req post e0 Hsplit Hfail) as [He Hpost].
    inversion He. split; [reflexivity | exact Hpost].
Qed.

Create HintDb failfast discriminated.
#[local] Hint Resolve FailFast_ret FailFast_lift FailFast_fetchApi FailFast_bind : failfast.

(** X2. A rejected [fetch] (a network failure) ends a method just as an
    error response does: in every method other than the four bulk
    operations, the first request that is rejected or answered outside 2xx
    is the last one sent, and the method throws that rejection, or the API
    error of that response, unchanged. *)
Theorem single_methods_fail_fast (c : Call) :
  is_bulk c = false -> FailFast (invoke c).
Proof.
  intros Hc. destruct c; try discriminate Hc; simpl;
    autounfold with client; cbv zeta; auto 8 with failfast.
Qed.

(** ** What every request looks like *)

Lemma prefix_append (a s : string) : String.prefix a (a ++ s) = true.
Proof.
  induction a as [|ch a IH]; simpl.
  - destruct s; reflexivity.
  - destruct (ascii_dec ch ch) as [_ | Hne]; [exact IH | contradiction Hne; reflexivity].
Qed.

Lemma well_formed_request path options :
  (exists rest, path = "/" ++ rest) -> well_formed (request_of path options).
Proof.
  intros [rest E]. subst path. unfold well_formed, request_of.
  destruct (params options) as [p|]; split; try reflexivity.
  - exact (prefix_append "https://api.miro.com/v2/"
             (rest ++ "?" ++ URLSearchParams_toString p)).
  - exact (prefix_append "https://api.miro.com/v2/" rest).
Qed.

Lemma update_endpoint_rooted boardId itemId type :
  exists rest, update_endpoint boardId itemId type = "/" ++ rest.
Proof.
  unfold update_endpoint.
  repeat match goal with
         | |- context [if ?c then _ else _] => destruct c
         end; eexists; reflexivity.
Qed.

Lemma Issues_weaken {A : Type} (P Q : list Request -> Prop) (m : M A) :
  Issues P m -> (forall new, P new -> Q new) -> Issues Q m.
Proof.
  intros Hm HPQ w res w' H. destruct (Hm _ _ _ H) as [new [Hc HP]].
  exists new. split; [exact Hc | apply HPQ; exact HP].
Qed.

Section ClosedUnderAppend.

Variable P : list Request -> Prop.
Hypothesis P_nil : P [].
Hypothesis P_app : forall a b, P a -> P b -> P (a ++ b)%list.

Lemma Issues_silent {A : Type} (m : M A) : Silent m -> Issues P m.
Proof.
  intros Hm w res w' H. rewrite (Hm _ _ _ H). exists []. split.
  - rewrite app_nil_r. reflexivity.
  - exact P_nil.
Qed.

Lemma Issues_console_error message error : Issues P (console_error message error).
Proof.
  intros w res w' H. inversion H; subst. exists []. split.
  - simpl. rewrite app_nil_r. reflexivity.
  - exact P_nil.
Qed.

Lemma Issues_bind {A B : Type} (m : M A) (k : A -> M B) :
  Issues P m -> (forall a, Issues P (k a)) -> Issues P (bind m k).
Proof.
  intros Hm Hk w res w' H. unfold bind in H.
  destruct (m w) as [[a | e] w1] eqn:Em.
  - destruct (Hm _ _ _ Em) as [new1 [Hc1 HP1]].
    destruct (Hk a _ _ _ H) as [new2 [Hc2 HP2]].
    exists (new1 ++ new2)%list. split.
    + rewrite Hc2, Hc1, app_assoc. reflexivity.
    + apply P_app; assumption.
  - inversion H; subst. apply (Hm _ _ _ Em).
Qed.

Lemma Issues_try_catch {A : Type} (m : M A) (handler : JsError -> M A) :
  Issues P m -> (forall e, Issues P (handler e)) -> Issues P (try_catch m handler).
Proof.
  intros Hm Hh w res w' H. unfold try_catch in H.
  destruct (m w) as [[a | e] w1] eqn:Em.
  - inversion H; subst. apply (Hm _ _ _ Em).
  - destruct (Hm _ _ _ Em) as [new1 [Hc1 HP1]].
    destruct (Hh e _ _ _ H) as [new2 [Hc2 HP2]].
    exists (new1 ++ new2)%list. split.
    + rewrite Hc2, Hc1, app_assoc. reflexivity.
    + apply P_app; assumption.
Qed.

Lemma Issues_for_of {A S : Type} (body : A -> S -> M S) (xs : list A) :
  (forall x s, Issues P (body x s)) -> forall s, Issues P (for_of xs body s).
Proof.
  intros Hbody. induction xs as [|x xs IH]; intros s; simpl.
  - apply Issues_silent. intros w res w' H. inversion H. reflexivity.
  - apply Issues_bind; [apply Hbody | intros s'; apply IH].
Qed.

End ClosedUnderAppend.

Lemma Silent_ret {A : Type} (a : A) : Silent (ret a).
Proof. intros w res w' H. inversion H. reflexivity. Qed.

Lemma Silent_throw {A : Type} (e : JsError) : Silent (@throw A e).
Proof. intros w res w' H. inversion H. reflexivity. Qed.

Lemma Silent_lift {A : Type} (r : JsError + A) : Silent (lift r).
Proof. intros w res w' H. destruct r; inversion H; reflexivity. Qed.

Lemma Issues_well_formed_fetchApi path options :
  (exists rest, path = "/" ++ rest) ->
  Issues (Forall well_formed) (fetchApi path options).
Proof.
  intros Hpath w res w' H. exists [request_of path options]. split.
  - rewrite (fetchApi_sent _ _ _ _ _ H). reflexivity.
  - constructor; [apply (well_formed_request _ _ Hpath) | constructor].
Qed.

Lemma well_formed_nil : Forall well_formed [].
Proof. constructor. Qed.

Lemma well_formed_app (a b : list Request) :
  Forall well_formed a -> Forall well_formed b -> Forall well_formed (a ++ b).
Proof. intros Ha Hb. apply Forall_app. split; assumption. Qed.

Ltac well_formed_trace :=
  lazymatch goal with
  | |- Issues _ (bind _ _) =>
      apply (Issues_bind _ well_formed_app);
      [well_formed_trace | intros; well_formed_trace]
  | |- Issues _ (try_catch _ _) =>
      apply (Issues_try_catch _ well_formed_app);
      [well_formed_trace | intros; well_formed_trace]
  | |- Issues _ (for_of _ _ _) =>
      apply (Issues_for_of _ well_formed_nil well_formed_app);
      intros; well_formed_trace
  | |- Issues _ (fetchApi (update_endpoint _ _ _) _) =>
      apply Issues_well_formed_fetchApi; apply update_endpoint_rooted
  | |- Issues _ (fetchApi _ _) =>
      apply Issues_well_formed_fetchApi; eexists; reflexivity
  | |- Issues _ (console_error _ _) =>
      apply (Issues_console_error _ well_formed_nil)
  | |- Issues _ (ret _) => apply (Issues_silent _ well_formed_nil); apply Silent_ret
  | |- Issues _ (throw _) => apply (Issues_silent _ well_formed_nil); apply Silent_throw
  | |- Issues _ (lift _) => apply (Issues_silent _ well_formed_nil); apply Silent_lift
  | |- Issues _ (if ?c then _ else _) => destruct c; well_formed_trace
  end.

(** X3. Every request that any method of the client hands to [fetch] - the
    bulk operations and failing runs included - goes to a URL under
    [https://api.miro.com/v2/] and carries exactly two headers: the bearer
    token the client was constructed with, and the JSON content type. *)
Theorem every_request_is_authorized (c : Call) (w : World) :
  exists new,
    calls (snd (invoke c w)) = (calls w ++ new)%list /\ Forall well_formed new.
Proof.
  assert (H : Issues (Forall well_formed) (invoke c)); [|
    destruct (invoke c w) as [res w'] eqn:E; exact (H _ _ _ E)].
  destruct c; simpl;
    autounfold with client;
    unfold bulkCreateItems, bulkUpdateItems, bulkDeleteItems, bulkCreateConnectors,
           bulkCreateItems_body, bulkCreateItems_switch;
    autounfold with client; cbv zeta; well_formed_trace.
Qed.

(** ** One request per method *)

Lemma OneRequest_fetchApi path options : OneRequest (fetchApi path options).
Proof.
  intros w res w' H. exists (request_of path options).
  apply (fetchApi_sent _ _ _ _ _ H).
Qed.

Lemma OneRequest_bind_silent {A B : Type} (m : M A) (k : A -> M B) :
  OneRequest m -> (forall a, Silent (k a)) -> OneRequest (bind m k).
Proof.
  intros Hm Hk w res w' H. unfold bind in H.
  destruct (m w) as [[a | e] w1] eqn:Em.
  - destruct (Hm _ _ _ Em) as [req Hreq]. exists req.
    rewrite (Hk a _ _ _ H). exact Hreq.
  - inversion H; subst. apply (Hm _ _ _ Em).
Qed.

Create HintDb onerequest discriminated.
#[local] Hint Resolve OneRequest_fetchApi OneRequest_bind_silent
  Silent_ret Silent_lift : onerequest.

(** X4. Apart from [updateItem] (which reads before it writes) and the four
    bulk operations, every method makes exactly one network call, whether it
    succeeds or fails, and touches nothing else: no retry, no second request,
    no console output. *)
Theorem single_methods_send_one_request (c : Call) :
  is_bulk c = false -> is_update_item c = false ->
  forall w res w', invoke c w = (res, w') -> exists req, w' = sent w req.
Proof.
  intros Hb Hu. change (OneRequest (invoke c)).
  destruct c; try discriminate Hb; try discriminate Hu; simpl;
    autounfold with client; cbv zeta; auto 8 with onerequest.
Qed.

(** ** Bulk operations against an arbitrary service *)

Lemma Quiet_silent {A : Type} (m : M A) : Silent m -> Quiet m.
Proof. intros Hm w res w' H. rewrite (Hm _ _ _ H). reflexivity. Qed.

Lemma Quiet_fetchApi path options : Quiet (fetchApi path options).
Proof. intros w res w' H. rewrite (fetchApi_sent _ _ _ _ _ H). reflexivity. Qed.

Lemma Quiet_bind {A B : Type} (m : M A) (k : A -> M B) :
  Quiet m -> (forall a, Quiet (k a)) -> Quiet (bind m k).
Proof.
  intros Hm Hk w res w' H. unfold bind in H.
  destruct (m w) as [[a | e] w1] eqn:Em.
  - rewrite (Hk a _ _ _ H). apply (Hm _ _ _ Em).
  - inversion H; subst. apply (Hm _ _ _ Em).
Qed.

Ltac quiet :=
  lazymatch goal with
  | |- Quiet (bind _ _) => apply Quiet_bind; [quiet | intros; quiet]
  | |- Quiet (fetchApi _ _) => apply Quiet_fetchApi
  | |- Quiet (ret _) => apply Quiet_silent; apply Silent_ret
  | |- Quiet (throw _) => apply Quiet_silent; apply Silent_throw
  | |- Quiet (lift _) => apply Quiet_silent; apply Silent_lift
  | |- Quiet (if ?c then _ else _) => destruct c; quiet
  end.

Lemma Quiet_switch boardId item : Quiet (bulkCreateItems_switch boardId item).
Proof. unfold bulkCreateItems_switch. autounfold with client. cbv zeta. quiet. Qed.

Lemma Quiet_updateItem boardId itemId data : Quiet (updateItem boardId itemId data).
Proof. autounfold with client. quiet. Qed.

Lemma Quiet_createConnector boardId connector : Quiet (createConnector boardId connector).
Proof. autounfold with client. cbv zeta. quiet. Qed.

Lemma Quiet_deleteItem boardId itemId : Quiet (deleteItem boardId itemId).
Proof. autounfold with client. quiet. Qed.

Lemma Outcomes_console {A B : Type} (f : A -> M B) label w xs os w' :
  (forall x, Quiet (f x)) ->
  Outcomes f label w xs os w' ->
  console w' = (console w ++ failure_log label xs os)%list.
Proof.
  intros Hq. induction 1 as [w | w x r w1 xs os w2 Hx _ IH | w x e w1 xs os w2 Hx _ IH];
    simpl.
  - rewrite app_nil_r. reflexivity.
  - rewrite IH, (Hq x _ _ _ Hx). reflexivity.
  - rewrite IH. simpl. rewrite (Hq x _ _ _ Hx), <- app_assoc. reflexivity.
Qed.

Lemma Outcomes_count {A B : Type} (f : A -> M B) label w xs os w' :
  Outcomes f label w xs os w' ->
  length (successes os) + length (failure_log label xs os) = length xs.
Proof. induction 1; simpl; lia. Qed.

(** The collecting loop returns for every list and every service. *)
Lemma for_of_collect_outcomes {A : Type} (f : A -> M JsVal) label (xs : list A) :
  forall acc w,
    exists os w',
      Outcomes f label w xs os w'
      /\ for_of xs (collect f label) acc w = (Ok (acc ++ successes os)%list, w').
Proof.
  induction xs as [|x xs IH]; intros acc w.
  - exists [], w. split; [constructor|]. simpl. rewrite app_nil_r. reflexivity.
  - simpl. unfold bind. destruct (f x w) as [[r | e] w1] eqn:Hx.
    + rewrite (collect_ok f label x acc w r w1 Hx).
      destruct (IH (acc ++ [r])%list w1) as [os [w2 [Hos Hrun]]].
      exists (Ok r :: os), w2. split; [apply (Outcomes_ok _ _ _ _ _ _ _ _ _ Hx Hos)|].
      rewrite Hrun. simpl. rewrite <- app_assoc. reflexivity.
    + rewrite (collect_throw f label x acc w e w1 Hx).
      destruct (IH acc (logged w1 (label x) e)) as [os [w2 [Hos Hrun]]].
      exists (Throw e :: os), w2.
      split; [apply (Outcomes_throw _ _ _ _ _ _ _ _ _ Hx Hos) | exact Hrun].
Qed.

Lemma for_of_attempt_outcomes {A : Type} (f : A -> M unit) label (xs : list A) :
  forall w,
    exists os w',
      Outcomes f label w xs os w'
      /\ for_of xs (attempt f label) tt w = (Ok tt, w').
Proof.
  induction xs as [|x xs IH]; intros w.
  - exists [], w. split; [constructor | reflexivity].
  - simpl. unfold bind. destruct (f x w) as [[r | e] w1] eqn:Hx.
    + rewrite (attempt_ok f label x tt w r w1 Hx).
      destruct (IH w1) as [os [w2 [Hos Hrun]]].
      exists (Ok r :: os), w2.
      split; [apply (Outcomes_ok _ _ _ _ _ _ _ _ _ Hx Hos) | exact Hrun].
    + rewrite (attempt_throw f label x tt w e w1 Hx).
      destruct (IH (logged w1 (label x) e)) as [os [w2 [Hos Hrun]]].
      exists (Throw e :: os), w2.
      split; [apply (Outcomes_throw _ _ _ _ _ _ _ _ _ Hx Hos) | exact Hrun].
Qed.

Lemma for_of_collects {A : Type} (f : A -> M JsVal) label (xs : list A) w :
  (forall x, Quiet (f x)) ->
  Collects f label xs w (for_of xs (collect f label) [] w).
Proof.
  intros Hq. destruct (for_of_collect_outcomes f label xs [] w) as [os [w' [Hos Hrun]]].
  exists os, w'. split; [exact Hos|]. split; [exact Hrun|].
  split; [apply (Outcomes_console _ _ _ _ _ _ Hq Hos) | apply (Outcomes_count _ _ _ _ _ _ Hos)].
Qed.

(** Each bulk operation within the limit runs its loop to the end. *)
Lemma bulk_operations_collect_aux (boardId : string) (w : World) :
  (forall items,
     length items <= 20 ->
     exists os w',
       Outcomes (bulkCreateItems_switch boardId) create_label w items os w'
       /\ bulkCreateItems boardId items w = (Ok (successes os), w'))
  /\ (forall updates,
     length updates <= 20 ->
     exists os w',
       Outcomes (fun u => updateItem boardId (update_id u) (update_data u))
         update_label w updates os w'
       /\ bulkUpdateItems boardId updates w = (Ok (successes os), w'))
  /\ (forall connectors,
     length connectors <= 20 ->
     exists os w',
       Outcomes (createConnector boardId) connector_label w connectors os w'
       /\ bulkCreateConnectors boardId connectors w = (Ok (successes os), w'))
  /\ (forall itemIds,
     length itemIds <= 20 ->
     exists os w',
       Outcomes (deleteItem boardId) delete_label w itemIds os w'
       /\ bulkDeleteItems boardId itemIds w = (Ok tt, w')).
Proof.
  split; [|split; [|split]]; intros xs Hlen.
  - unfold bulkCreateItems. rewrite (limit_respected _ Hlen).
    apply (for_of_collect_outcomes (bulkCreateItems_switch boardId) create_label xs []).
  - unfold bulkUpdateItems. rewrite (limit_respected _ Hlen).
    apply (for_of_collect_outcomes
             (fun u => updateItem boardId (update_id u) (update_data u)) update_label xs []).
  - unfold bulkCreateConnectors. rewrite (limit_respected _ Hlen).
    apply (for_of_collect_outcomes (createConnector boardId) connector_label xs []).
  - unfold bulkDeleteItems. rewrite (limit_respected _ Hlen).
    apply (for_of_attempt_outcomes (deleteItem boardId) delete_label xs w).
Qed.

(** X5. Within the limit of 20 a bulk operation never throws, whatever the
    service does and however many elements fail.  It returns the results of
    exactly the calls that succeeded, in input order, and writes one console
    line per failed call, in input order and under that element's label; so
    results and console lines together number as many as the input.  The bulk
    delete returns nothing and logs its failures the same way. *)
Theorem bulk_operations_collect (boardId : string) (w : World) :
  (forall items,
     length items <= 20 ->
     Collects (bulkCreateItems_switch boardId) create_label items w
       (bulkCreateItems boardId items w))
  /\ (forall updates,
     length updates <= 20 ->
     Collects (fun u => updateItem boardId (update_id u) (update_data u)) update_label
       updates w (bulkUpdateItems boardId updates w))
  /\ (forall connectors,
     length connectors <= 20 ->
     Collects (createConnector boardId) connector_label connectors w
       (bulkCreateConnectors boardId connectors w))
  /\ (forall itemIds,
     length itemIds <= 20 ->
     exists os w',
       Outcomes (deleteItem boardId) delete_label w itemIds os w'
       /\ bulkDeleteItems boardId itemIds w = (Ok tt, w')
       /\ console w' = (console w ++ failure_log delete_label itemIds os)%list).
Proof.
  split; [|split; [|split]]; intros xs Hlen.
  - unfold bulkCreateItems. rewrite (limit_respected _ Hlen).
    apply (for_of_collects (bulkCreateItems_switch boardId) create_label).
    intros x. apply Quiet_switch.
  - unfold bulkUpdateItems. rewrite (limit_respected _ Hlen).
    apply (for_of_collects
             (fun u => updateItem boardId (update_id u) (update_data u)) update_label).
    intros x. apply Quiet_updateItem.
  - unfold bulkCreateConnectors. rewrite (limit_respected _ Hlen).
    apply (for_of_collects (createConnector boardId) connector_label).
    intros x. apply Quiet_createConnector.
  - unfold bulkDeleteItems. rewrite (limit_respected _ Hlen).
    destruct (for_of_attempt_outcomes (deleteItem boardId) delete_label xs w)
      as [os [w' [Hos Hrun]]].
    exists os, w'. split; [exact Hos|]. split; [exact Hrun|].
    apply (Outcomes_console _ _ _ _ _ _ (Quiet_deleteItem boardId) Hos).
Qed.

(** ** How many requests a bulk operation makes *)

Lemma Silent_bind {A B : Type} (m : M A) (k : A -> M B) :
  Silent m -> (forall a, Silent (k a)) -> Silent (bind m k).
Proof.
  intros Hm Hk w res w' H. unfold bind in H.
  destruct (m w) as [[a | e] w1] eqn:Em.
  - rewrite (Hk a _ _ _ H). apply (Hm _ _ _ Em).
  - inversion H; subst. apply (Hm _ _ _ Em).
Qed.

Ltac silent :=
  lazymatch goal with
  | |- Silent (bind _ _) => apply Silent_bind; [silent | intros; silent]
  | |- Silent (ret _) => apply Silent_ret
  | |- Silent (throw _) => apply Silent_throw
  | |- Silent (lift _) => apply Silent_lift
  | |- Silent (if ?c then _ else _) => destruct c; silent
  end.

Lemma Issues_bind_silent {A B : Type} (P : list Request -> Prop) (m : M A) (k : A -> M B) :
  Silent m -> P [] -> (forall a, Issues P (k a)) -> Issues P (bind m k).
Proof.
  intros Hm Hnil Hk w res w' H. unfold bind in H.
  destruct (m w) as [[a | e] w1] eqn:Em; rewrite (Hm _ _ _ Em) in H.
  - apply (Hk a _ _ _ H).
  - inversion H; subst. exists []. split; [rewrite app_nil_r; reflexivity | exact Hnil].
Qed.

Lemma OneRequest_Issues {A : Type} (P : list Request -> Prop) (m : M A) :
  OneRequest m -> (forall req, P [req]) -> Issues P m.
Proof.
  intros Hm HP w res w' H. destruct (Hm _ _ _ H) as [req Hw]. subst w'.
  exists [req]. split; [reflexivity | apply HP].
Qed.

Ltac at_most_one :=
  lazymatch goal with
  | |- Issues _ (bind (fetchApi _ _) _) =>
      apply OneRequest_Issues;
      [auto 8 with onerequest | intros; simpl; lia]
  | |- Issues _ (fetchApi _ _) =>
      apply OneRequest_Issues; [apply OneRequest_fetchApi | intros; simpl; lia]
  | |- Issues _ (bind _ _) =>
      apply Issues_bind_silent; [silent | simpl; lia | intros; at_most_one]
  | |- Issues _ (throw _) =>
      apply Issues_silent; [simpl; lia | apply Silent_throw]
  | |- Issues _ (if ?c then _ else _) => destruct c; at_most_one
  end.

Lemma switch_requests boardId item :
  Issues (fun new => 0 <= length new <= 1) (bulkCreateItems_switch boardId item).
Proof. unfold bulkCreateItems_switch. autounfold with client. cbv zeta. at_most_one. Qed.

Lemma updateItem_requests boardId itemId data :
  Issues (fun new => 1 <= length new <= 2) (updateItem boardId itemId data).
Proof.
  intros w res w' H. unfold updateItem, getItem in H. unfold bind at 1 in H.
  destruct (fetchApi ("/boards/" ++ boardId ++ "/items/" ++ itemId) no_options w)
    as [[item | e] w1] eqn:Eread; apply fetchApi_sent in Eread; subst w1.
  - unfold bind in H. destruct (prop item "type") as [e | type]; simpl in H.
    + inversion H. eexists. split; [reflexivity | simpl; lia].
    + apply fetchApi_sent in H. subst w'. simpl. rewrite <- app_assoc.
      eexists. split; [reflexivity | simpl; lia].
  - inversion H. eexists. split; [reflexivity | simpl; lia].
Qed.

Lemma deleteItem_requests boardId itemId :
  Issues (fun new => 1 <= length new <= 1) (deleteItem boardId itemId).
Proof.
  apply OneRequest_Issues; [|intros; simpl; lia].
  autounfold with client. auto 8 with onerequest.
Qed.

Lemma createConnector_requests boardId connector :
  Issues (fun new => 1 <= length new <= 1) (createConnector boardId connector).
Proof.
  apply OneRequest_Issues; [|intros; simpl; lia].
  autounfold with client. cbv zeta. auto 8 with onerequest.
Qed.

Lemma Outcomes_requests {A B : Type} (f : A -> M B) label (lo hi : nat) w xs os w' :
  (forall x, Issues (fun new => lo <= length new <= hi) (f x)) ->
  Outcomes f label w xs os w' ->
  length (calls w) + length xs * lo <= length (calls w')
  /\ length (calls w') <= length (calls w) + length xs * hi.
Proof.
  intros Hf. induction 1 as [w | w x r w1 xs os w2 Hx _ IH | w x e w1 xs os w2 Hx _ IH];
    simpl.
  - lia.
  - destruct (Hf x _ _ _ Hx) as [new [Hc Hn]].
    rewrite Hc, length_app in IH. lia.
  - destruct (Hf x _ _ _ Hx) as [new [Hc Hn]].
    simpl in IH. rewrite Hc, length_app in IH. lia.
Qed.

(** X6. The number of requests a bulk operation within the limit makes,
    whatever the service answers: the bulk delete and the bulk connector
    creation make exactly one request per element; the bulk update makes at
    least one and at most two per element (the read, then the write); the
    bulk item creation makes at most one per element. *)
Theorem bulk_request_counts (boardId : string) (w : World) :
  (forall itemIds,
     length itemIds <= 20 ->
     length (calls (snd (bulkDeleteItems boardId itemIds w)))
     = length (calls w) + length itemIds)
  /\ (forall connectors,
     length connectors <= 20 ->
     length (calls (snd (bulkCreateConnectors boardId connectors w)))
     = length (calls w) + length connectors)
  /\ (forall updates,
     length updates <= 20 ->
     length (calls w) + length updates
     <= length (calls (snd (bulkUpdateItems boardId updates w)))
     <= length (calls w) + 2 * length updates)
  /\ (forall items,
     length items <= 20 ->
     length (calls w)
     <= length (calls (snd (bulkCreateItems boardId items w)))
     <= length (calls w) + length items).
Proof.
  destruct (bulk_operations_collect_aux boardId w) as [Hc [Hu [Hn Hd]]].
  split; [|split; [|split]]; intros xs Hlen.
  - destruct (Hd xs Hlen) as [os [w' [Hos Hrun]]]. rewrite Hrun. simpl.
    assert (H := Outcomes_requests (deleteItem boardId) delete_label 1 1 _ _ _ _
                   (deleteItem_requests boardId) Hos).
    lia.
  - destruct (Hn xs Hlen) as [os [w' [Hos Hrun]]]. rewrite Hrun. simpl.
    assert (H := Outcomes_requests (createConnector boardId) connector_label 1 1 _ _ _ _
                   (createConnector_requests boardId) Hos).
    lia.
  - destruct (Hu xs Hlen) as [os [w' [Hos Hrun]]]. rewrite Hrun. simpl.
    assert (H := Outcomes_requests _ update_label 1 2 _ _ _ _
                   (fun u => updateItem_requests boardId (update_id u) (update_data u)) Hos).
    lia.
  - destruct (Hc xs Hlen) as [os [w' [Hos Hrun]]]. rewrite Hrun. simpl.
    assert (H := Outcomes_requests _ create_label 0 1 _ _ _ _
                   (switch_requests boardId) Hos).
    lia.
Qed.

(** ** Optional arguments *)

(** X7. An empty string given for an optional filter, and a zero given for
    [limit], are ignored exactly as if the argument had been left out, and an
    options object with nothing in it is like no options at all.  So
    [getItemsInFrame] with an empty frame id lists the items of the whole
    board, and a connector given an empty caption is created without
    captions. *)
Theorem empty_filters_are_ignored :
  (forall query teamId,
     getBoards query teamId = getBoards (nonempty query) (nonempty teamId))
  /\ (forall boardId type parentItemId cursor limit,
     getBoardItems boardId (Some (mkItemsOptions type parentItemId cursor limit))
     = getBoardItems boardId
         (Some (mkItemsOptions (nonempty type) (nonempty parentItemId)
                  (nonempty cursor) (nonzero limit))))
  /\ (forall boardId,
     getBoardItems boardId (Some (mkItemsOptions None None None None))
     = getBoardItems boardId None)
  /\ (forall boardId, getItemsInFrame boardId "" = getBoardItems boardId None)
  /\ (forall boardId startId endId style,
     createConnector boardId (mkConnector startId endId (Some "") style)
     = createConnector boardId (mkConnector startId endId None style)).
Proof.
  split; [|split; [|split; [|split]]].
  - intros [[|c q]|] [[|c' t]|]; reflexivity.
  - intros boardId [[|c1 s1]|] [[|c2 s2]|] [[|c3 s3]|] [n|]; unfold getBoardItems; simpl;
      try reflexivity; destruct (n =? 0)%Z eqn:E; simpl; try rewrite E; reflexivity.
  - reflexivity.
  - reflexivity.
  - reflexivity.
Qed.

(** X8. A request made with a falsy body ([undefined], [null], [false], [0]
    or the empty string) is the request made with no body at all: an update
    given such [data] reaches the service as a PATCH without a body. *)
Theorem falsy_body_is_not_sent (path verb : string) (data : JsVal) (w : World) :
  truthy data = false ->
  req_body (request_of path (with_body verb data)) = None
  /\ fetchApi path (with_body verb data) w = fetchApi path (with_method verb) w.
Proof.
  intros H. unfold fetchApi, request_of. simpl. rewrite H. split; reflexivity.
Qed.

(** ** What the bulk creation does with an item's members *)

Lemma for_of_map {A S : Type} (g : A -> A) (body : A -> S -> M S) (xs : list A) :
  (forall x s, body (g x) s = body x s) ->
  forall s w, for_of (map g xs) body s w = for_of xs body s w.
Proof.
  intros Hg. induction xs as [|x xs IH]; intros s w; simpl.
  - reflexivity.
  - unfold bind. rewrite Hg. destruct (body x s w) as [[s' | e] w']; [apply IH | reflexivity].
Qed.

(** X9. [bulkCreateItems] never looks at the [parent] member of its items:
    whatever parent is put into the items of a batch, the requests made, the
    results and the console are the same, so no item is created inside a
    frame by this operation. *)
Theorem bulkCreateItems_ignores_parent (boardId : string) (parent : JsVal)
  (items : list CreateItemData) (w : World) :
  bulkCreateItems boardId (map (with_parent parent) items) w
  = bulkCreateItems boardId items w.
Proof.
  unfold bulkCreateItems. rewrite length_map.
  destruct (20 <? length items)%nat; [reflexivity|].
  apply for_of_map. intros [t d s p g pa] acc. reflexivity.
Qed.

(** X10. An item of a type [bulkCreateItems] has a case for, but whose [data]
    member is missing or [null], makes the [switch] throw a [TypeError] before
    any request is built; the loop logs it and drops the element, like an
    element whose request failed. *)
Theorem item_without_data_dropped (boardId : string) (item : CreateItemData) (w : World) :
  In (item_type item) creatable ->
  item_data item = JUndefined \/ item_data item = JNull ->
  exists e,
    err_name e = "TypeError"
    /\ bulkCreateItems_switch boardId item w = (Throw e, w)
    /\ forall createdItems,
         bulkCreateItems_body boardId item createdItems w
         = (Ok createdItems, logged w (create_label item) e).
Proof.
  intros Htype Hdata.
  assert (Hswitch : exists e, err_name e = "TypeError"
                              /\ bulkCreateItems_switch boardId item w = (Throw e, w)).
  { unfold bulkCreateItems_switch. cbv zeta. simpl in Htype.
    repeat (destruct Htype as [Htype | Htype];
            [rewrite <- Htype; destruct Hdata as [Hd | Hd]; rewrite Hd; simpl;
             eexists; (split; [|reflexivity]); reflexivity|]).
    contradiction. }
  destruct Hswitch as [e [Hname Hswitch]].
  exists e. split; [exact Hname|]. split; [exact Hswitch|].
  intros createdItems. unfold bulkCreateItems_body, try_catch, bind.
  rewrite Hswitch. reflexivity.
Qed.

(** ** The tool handler *)

Lemma FailFast_throw {A : Type} (e : JsError) : FailFast (@throw A e).
Proof.
  intros w res w' H. inversion H; subst. exists []. split.
  - rewrite app_nil_r. reflexivity.
  - intros pre req post e0 Hsplit. destruct pre; discriminate Hsplit.
Qed.

Lemma FailFast_try_rethrow {A : Type} (m : M A) (message : string) :
  FailFast m ->
  FailFast (try_catch m (fun error => console_error message error ;;; throw error)).
Proof.
  intros Hm w res w' H. unfold try_catch in H.
  destruct (m w) as [[a | e] w1] eqn:Em.
  - inversion H; subst. apply (Hm _ _ _ Em).
  - inversion H; subst. simpl. apply (Hm _ _ _ Em).
Qed.

Ltac fail_fast :=
  lazymatch goal with
  | |- FailFast (bind _ _) => apply FailFast_bind; [fail_fast | intros; fail_fast]
  | |- FailFast (fetchApi _ _) => apply FailFast_fetchApi
  | |- FailFast (ret _) => apply FailFast_ret
  | |- FailFast (lift _) => apply FailFast_lift
  | |- FailFast (throw _) => apply FailFast_throw
  | |- FailFast (try_catch _ _) => apply FailFast_try_rethrow; fail_fast
  | |- FailFast (match ?v with _ => _ end) => destruct v; fail_fast
  end.

Lemma CallTool_switch_fail_fast pretty (request : ToolCall) :
  is_bulk_tool request = false -> FailFast (CallTool_switch pretty request).
Proof.
  intros Hb. destruct request; try discriminate Hb; simpl;
    unfold show_prop; autounfold with client; cbv zeta; fail_fast.
Qed.


(** X14. What is wrong with the call itself is reported the same way, and
    before anything is sent: a tool name the [switch] has no case for, and a
    batch of more than 20 elements given to a bulk tool, each give an error
    result with the fixed message, one console line, and no request. *)
Theorem tool_call_rejects_bad_calls pretty (w : World) :
  let rejected (request : ToolCall) (message : string) :=
    CallTool pretty request w
    = (Ok (mkResult (Some ("Error: " ++ message)) true),
       logged w "Error handling tool call:" (Error message)) in
  (forall name,
     ~ In name tool_names ->
     rejected (unknown_tool name) ("Unknown tool: " ++ name))
  /\ (forall boardId items,
        20 < length items ->
        rejected (bulk_create_items boardId items)
          "Cannot create more than 20 items in a single bulk operation")
  /\ (forall boardId updates,
        20 < length updates ->
        rejected (bulk_update_items boardId updates)
          "Cannot update more than 20 items in a single bulk operation")
  /\ (forall boardId itemIds,
        20 < length itemIds ->
        rejected (bulk_delete_items boardId itemIds)
          "Cannot delete more than 20 items in a single bulk operation")
  /\ (forall boardId connectors,
        20 < length connectors ->
        rejected (bulk_create_connectors boardId connectors)
          "Cannot create more than 20 connectors at once").
Proof.
  intros rejected. subst rejected. cbv beta.
  split; [intros name _; reflexivity|].
  split; [|split; [|split]]; intros boardId xs Hlen;
    unfold CallTool, CallTool_switch, try_catch, bind,
           bulkCreateItems, bulkUpdateItems, bulkDeleteItems, bulkCreateConnectors;
    rewrite (limit_exceeded _ Hlen); reflexivity.
Qed.

(** X15. What a bulk tool reports for a batch within the limit, whatever the
    service does: never an error.  [bulk_delete_items] reports the number of
    ids it was given, also when some or all of the deletions failed;
    the three other bulk tools report the number of elements that
    succeeded.  Which elements failed is told to the console only. *)
Theorem bulk_tools_report_counts pretty (boardId : string) (w : World) :
  (forall itemIds,
     length itemIds <= 20 ->
     exists os w',
       Outcomes (deleteItem boardId) delete_label w itemIds os w'
       /\ CallTool pretty (bulk_delete_items boardId itemIds) w
          = (Ok (text_result ("Deleted " ++ num_to_string (Z.of_nat (length itemIds))
                              ++ " items from board " ++ boardId)), w'))
  /\ (forall items,
     length items <= 20 ->
     exists os w',
       Outcomes (bulkCreateItems_switch boardId) create_label w items os w'
       /\ CallTool pretty (bulk_create_items boardId items) w
          = (Ok (text_result ("Created "
                              ++ num_to_string (Z.of_nat (length (successes os)))
                              ++ " items on board " ++ boardId)), w'))
  /\ (forall updates,
     length updates <= 20 ->
     exists os w',
       Outcomes (fun u => updateItem boardId (update_id u) (update_data u))
         update_label w updates os w'
       /\ CallTool pretty (bulk_update_items boardId updates) w
          = (Ok (text_result ("Updated "
                              ++ num_to_string (Z.of_nat (length (successes os)))
                              ++ " items on board " ++ boardId)), w'))
  /\ (forall connectors,
     length connectors <= 20 ->
     exists os w',
       Outcomes (createConnector boardId) connector_label w connectors os w'
       /\ CallTool pretty (bulk_create_connectors boardId connectors) w
          = (Ok (text_result ("Created "
                              ++ num_to_string (Z.of_nat (length (successes os)))
                              ++ " connectors on board " ++ boardId)), w')).
Proof.
  destruct (bulk_operations_collect_aux boardId w) as [Hc [Hu [Hn Hd]]].
  split; [|split; [|split]]; intros xs Hlen.
  - destruct (Hd xs Hlen) as [os [w' [Hos Hrun]]]. exists os, w'.
    split; [exact Hos|]. unfold CallTool, CallTool_switch, try_catch, bind.
    rewrite Hrun. reflexivity.
  - destruct (Hc xs Hlen) as [os [w' [Hos Hrun]]]. exists os, w'.
    split; [exact Hos|]. unfold CallTool, CallTool_switch, try_catch, bind.
    rewrite Hrun. reflexivity.
  - destruct (Hu xs Hlen) as [os [w' [Hos Hrun]]]. exists os, w'.
    split; [exact Hos|]. unfold CallTool, CallTool_switch, try_catch, bind.
    rewrite Hrun. reflexivity.
  - destruct (Hn xs Hlen) as [os [w' [Hos Hrun]]]. exists os, w'.
    split; [exact Hos|]. unfold CallTool, CallTool_switch, try_catch, bind.
    rewrite Hrun. reflexivity.
Qed.

Section PlainServiceTools.

Hypothesis remote_plain :
  forall history req,
    exists response, remote history req = inr response /\ plain_success response.

Lemma fetchApi_plain path options w :
  fetchApi path options w = (Ok (JObj []), sent w (request_of path options)).
Proof.
  destruct (remote_plain (calls w) (request_of path options))
    as [response [H [Hok [_ Hct]]]].
  apply (fetchApi_not_json _ _ _ _ H (proj2 (ok_iff _) Hok) Hct).
Qed.

(** X16. Against a service whose successful answers carry no JSON (so that
    [fetchApi] returns the empty object), a creation tool does not report an
    error: after its one request it answers that the item was created, with
    the id spelled [undefined]. *)
Theorem creation_tools_report_undefined_id pretty (request : ToolCall) (what : string)
  (w : World) :
  created_what request = Some what ->
  exists req,
    CallTool pretty request w
    = (Ok (text_result ("Created " ++ what ++ " with ID: undefined")), sent w req).
Proof.
  intros Hwhat.
  destruct request; try discriminate Hwhat; inversion Hwhat; subst what;
    unfold CallTool, CallTool_switch, show_prop; autounfold with client; cbv zeta;
    unfold try_catch, bind; rewrite fetchApi_plain; simpl;
    eexists; reflexivity.
Qed.

End PlainServiceTools.

End Client.

(** ** Credential resolution *)

(** C8, as the code has it.  A non-empty command-line token is the resolved
    credential whatever the environment holds, and the client is constructed
    with it.  An empty command-line value counts as none: the environment
    variable is used instead.  When neither source gives a non-empty token -
    in particular when neither is present - the program exits with code 1
    and no client is constructed. *)
Theorem token_precedence (cli : string) (env : option string) :
  cli <> "" ->
  Index.oauthToken (Some cli) env = Some cli
  /\ Index.startup (Some cli) env = Index.Serving (mkClient cli)
  /\ Index.oauthToken (Some "") env = env
  /\ Index.oauthToken None env = env
  /\ Index.startup None None = Index.Exit 1
  /\ (forall argv_token env_token,
        ostr_truthy argv_token = false -> ostr_truthy env_token = false ->
        Index.startup argv_token env_token = Index.Exit 1).
Proof.
  intros Hcli.
  assert (Htruthy : str_truthy cli = true).
  { destruct cli; [contradiction Hcli; reflexivity | reflexivity]. }
  assert (Htoken : Index.oauthToken (Some cli) env = Some cli).
  { unfold Index.oauthToken, ostr_or. simpl. rewrite Htruthy. reflexivity. }
  split; [exact Htoken|].
  split; [unfold Index.startup; rewrite Htoken, Htruthy; reflexivity|].
  do 3 (split; [reflexivity|]).
  intros argv_token env_token Ha He.
  unfold Index.startup, Index.oauthToken, ostr_or. rewrite Ha.
  destruct env_token as [t|]; [simpl in He; rewrite He|]; reflexivity.
Qed.

(** ** Start of the program *)


Lemma substring_whole (s : string) :
  forall m, String.length s <= m -> substring 0 m s = s.
Proof.
  induction s as [|c s IH]; intros m H.
  - destruct m; reflexivity.
  - destruct m; simpl in H; [lia|]. simpl. rewrite IH; [reflexivity | lia].
Qed.

Lemma length_substring (s : string) :
  forall n m, n + m <= String.length s -> String.length (substring n m s) = m.
Proof.
  induction s as [|c s IH]; intros n m H; simpl in H.
  - assert (n = 0) by lia. assert (m = 0) by lia. subst. reflexivity.
  - destruct n as [|n].
    + destruct m as [|m]; [reflexivity|]. simpl. rewrite IH; [reflexivity | lia].
    + simpl. apply IH. lia.
Qed.

Lemma length_append (a b : string) :
  String.length (a ++ b) = String.length a + String.length b.
Proof. induction a as [|c a IH]; simpl; [reflexivity | rewrite IH; reflexivity]. Qed.

(** X12. What the masked token written at startup shows.  A token of at most
    five characters is printed in full, before and after the dots; a token of
    five characters or more is printed as its first five and its last five
    characters around the dots, thirteen characters in all (so a token of
    fewer than ten characters has every character printed).  Characters are
    those of an ASCII token. *)
Theorem masked_token_shape (t : string) :
  (String.length t <= 5 -> Index.masked t = t ++ "..." ++ t)
  /\ (5 <= String.length t ->
      Index.masked t
      = substring 0 5 t ++ "..." ++ substring (String.length t - 5) 5 t
      /\ String.length (Index.masked t) = 13).
Proof.
  unfold Index.masked. cbv zeta. split; intros H.
  - replace (String.length t - 5) with 0 by lia.
    rewrite Nat.sub_0_r, !substring_whole; [reflexivity | lia | lia].
  - replace (String.length t - (String.length t - 5)) with 5 by lia.
    split; [reflexivity|].
    rewrite !length_append, !length_substring by lia. reflexivity.
Qed.

(** ** The theorems at work on the test doubles *)

(** A method of the client run against a given service. *)
Local Abbreviation against service method :=
  (method Doubles.stringify Doubles.parse Doubles.query_string service Doubles.client)
  (only parsing).

Lemma bulk_over_limit_rejected_witness :
  20 < length (repeat "id" 21)
  /\ against Doubles.creating bulkDeleteItems "b1" (repeat "id" 21) initial
     = (Throw (Error "Cannot delete more than 20 items in a single bulk operation"),
        initial).
Proof.
  split; [simpl; lia|].
  apply (proj1 (proj2 (proj2
           (against Doubles.creating bulk_over_limit_rejected "b1" initial)))).
  simpl; lia.
Defined.

Lemma bulk_all_succeed_witness :
  exists w',
    against Doubles.creating bulkCreateItems "b1"
      [Doubles.sticky "A"; Doubles.sticky "B"; Doubles.sticky "C"] initial
    = (Ok [JObj [("id", JStr "item-1"); ("type", JStr "item-1")];
           JObj [("id", JStr "item-2"); ("type", JStr "item-2")];
           JObj [("id", JStr "item-3"); ("type", JStr "item-3")]], w')
    /\ length (calls w') = 3.
Proof.
  eexists. split.
  - eapply proj1. apply (proj1 (against Doubles.creating bulk_all_succeed "b1")).
    + simpl; lia.
    + repeat (eapply Succeeds_cons; [reflexivity|]). apply Succeeds_nil.
  - reflexivity.
Defined.

(** The scenario of the specification: three sticky notes, the second call
    fails. *)
Lemma bulk_one_failure_dropped_witness :
  exists w',
    against Doubles.second_fails bulkCreateItems "b1"
      ([Doubles.sticky "A"] ++ Doubles.sticky "B" :: [Doubles.sticky "C"]) initial
    = (Ok ([JObj [("id", JStr "item-1"); ("type", JStr "item-1")]]
           ++ [JObj [("id", JStr "item-3"); ("type", JStr "item-3")]])%list, w')
    /\ length (calls w') = 3
    /\ console w'
       = [mkLog "Failed to create item of type sticky_note:"
            (Error "Miro API error: 500 Internal Server Error - boom")].
Proof.
  eexists. split; [|split].
  - eapply proj1.
    eapply (proj1 (against Doubles.second_fails bulk_one_failure_dropped "b1")
              [Doubles.sticky "A"] (Doubles.sticky "B") [Doubles.sticky "C"]).
    + simpl; lia.
    + eapply Succeeds_cons; [reflexivity | apply Succeeds_nil].
    + reflexivity.
    + eapply Succeeds_cons; [reflexivity | apply Succeeds_nil].
  - reflexivity.
  - reflexivity.
Defined.

Lemma updateItem_routes_by_type_witness :
  exists w',
    against Doubles.shapes updateItem "b1" "i7" (JObj [("data", JObj [])]) initial
    = (Ok (JObj [("id", JStr "shape"); ("type", JStr "shape")]), w')
    /\ map req_method (calls w') = ["GET"; "PATCH"]
    /\ map req_url (calls w')
       = ["https://api.miro.com/v2/boards/b1/items/i7";
          "https://api.miro.com/v2/boards/b1/shapes/i7"].
Proof.
  pose proof (against Doubles.shapes updateItem_routes_by_type
                "b1" "i7" (JObj [("data", JObj [])]) initial) as H.
  cbv zeta in H. destruct H as [_ [_ [H _]]].
  destruct (H _ _ (JStr "shape") eq_refl eq_refl) as [_ [Hrun Hcalls]].
  eexists. split; [rewrite Hrun; reflexivity|].
  split; reflexivity.
Defined.

Lemma delete_or_204_gives_empty_success_witness :
  against Doubles.empty_200 fetchApi "/boards/b1/items/i7" (with_method "DELETE") initial
  = (Ok (JObj []),
     sent initial (request_of Doubles.stringify Doubles.query_string Doubles.client
                     "/boards/b1/items/i7" (with_method "DELETE")))
  /\ fst (against Doubles.no_content invoke (DeleteItem "b1" "i7") initial) = Ok JUndefined
  /\ fst (against Doubles.empty_200 invoke (DeleteItem "b1" "i7") initial) = Ok JUndefined.
Proof.
  split; [|split].
  - apply (proj1 (against Doubles.empty_200 delete_or_204_gives_empty_success)
             "/boards/b1/items/i7" (with_method "DELETE") initial
             (mkResponse 200 "OK" None "")).
    + reflexivity.
    + simpl; lia.
    + right; reflexivity.
  - destruct (proj2 (against Doubles.no_content delete_or_204_gives_empty_success)
                (DeleteItem "b1" "i7") initial eq_refl) as [req [_ Hrun]].
    rewrite (Hrun (mkResponse 204 "No Content" None "") eq_refl); [reflexivity|].
    simpl; lia.
  - destruct (proj2 (against Doubles.empty_200 delete_or_204_gives_empty_success)
                (DeleteItem "b1" "i7") initial eq_refl) as [req [_ Hrun]].
    rewrite (Hrun (mkResponse 200 "OK" None "") eq_refl); [reflexivity|].
    simpl; lia.
Defined.

Lemma api_error_raised_and_propagated_witness :
  fst (against Doubles.not_found fetchApi "/boards/b1/items/i7" no_options initial)
  = Throw (Error "Miro API error: 404 Not Found - no such item")
  /\ is_bulk (UpdateItem "b1" "i7" JNull) = false
  /\ Propagates Doubles.not_found
       (against Doubles.not_found invoke (UpdateItem "b1" "i7" JNull)).
Proof.
  split; [|split].
  - destruct (proj1 (against Doubles.not_found api_error_raised_and_propagated)
                "/boards/b1/items/i7" no_options initial
                (mkResponse 404 "Not Found" (Some "application/json") "no such item")
                eq_refl) as [Hrun _].
    + simpl; lia.
    + rewrite Hrun. reflexivity.
  - reflexivity.
  - apply (proj2 (against Doubles.not_found api_error_raised_and_propagated)).
    reflexivity.
Defined.

Lemma non_json_success_gives_empty_object_witness :
  fst (against Doubles.empty_200 fetchApi "/boards" no_options initial) = Ok (JObj [])
  /\ exists v w',
       against Doubles.empty_200 invoke (GetBoards (Some "roadmap") None) initial
       = (Ok v, w').
Proof.
  split.
  - rewrite (proj1 (against Doubles.empty_200 non_json_success_gives_empty_object)
               "/boards" no_options initial (mkResponse 200 "OK" None "")).
    + reflexivity.
    + reflexivity.
    + simpl; lia.
    + simpl; lia.
    + discriminate.
    + left; reflexivity.
  - apply (proj2 (against Doubles.empty_200 non_json_success_gives_empty_object)).
    + intros history req. exists (mkResponse 200 "OK" None "").
      split; [reflexivity|]. unfold plain_success. simpl.
      split; [lia|]. split; [lia | left; reflexivity].
    + simpl; lia.
Defined.

Example includes_json_with_charset :
  includes "application/json; charset=utf-8" "application/json" = true.
Proof. reflexivity. Qed.

Example includes_is_case_sensitive :
  includes "Application/JSON" "application/json" = false.
Proof. reflexivity. Qed.

Example status_299_is_ok : ok (mkResponse 299 "" None "") = true.
Proof. reflexivity. Qed.

Example status_300_is_not_ok : ok (mkResponse 300 "" None "") = false.
Proof. reflexivity. Qed.

Example get_boards_sends_empty_query :
  map req_url (calls (snd (against Doubles.empty_200 getBoards None None initial)))
  = ["https://api.miro.com/v2/boards?"].
Proof. reflexivity. Qed.

Example masked_short_token : Index.masked "abc" = "abc...abc".
Proof. reflexivity. Qed.

Example masked_long_token : Index.masked "0123456789ab" = "01234...789ab".
Proof. reflexivity. Qed.

Lemma unsupported_item_type_dropped_witness :
  against Doubles.creating bulkCreateItems "b1"
    [mkItem "connector" (JObj [("content", JStr "A")])
       JUndefined JUndefined JUndefined JUndefined] initial
  = (Ok [],
     mkWorld []
       [mkLog "Failed to create item of type connector:"
          (Error "Unsupported item type: connector")]).
Proof.
  pose proof (against Doubles.creating unsupported_item_type_dropped "b1"
                (mkItem "connector" (JObj [("content", JStr "A")])
                   JUndefined JUndefined JUndefined JUndefined)
                initial (or_introl eq_refl)) as H.
  cbv zeta in H. destruct H as [_ [_ [_ H]]].
  apply (H [] [] initial []); [simpl; lia | reflexivity].
Defined.

Lemma token_precedence_witness :
  "cli-token" <> ""
  /\ Index.oauthToken (Some "cli-token") (Some "env-token") = Some "cli-token"
  /\ Index.startup (Some "cli-token") (Some "env-token")
     = Index.Serving (mkClient "cli-token").
Proof.
  split; [discriminate|].
  destruct (token_precedence "cli-token" (Some "env-token")) as [H1 [H2 _]];
    [discriminate|].
  split; [exact H1 | exact H2].
Defined.

(** C8 as stated fails when the command-line value is the empty string: the
    environment variable's value is the resolved credential. *)
Lemma token_precedence_counterexample :
  Index.oauthToken (Some "") (Some "env-token") = Some "env-token"
  /\ Index.oauthToken (Some "") (Some "env-token") <> Some "".
Proof. split; [reflexivity | discriminate]. Qed.

Lemma fetchApi_decodes_json_witness :
  against Doubles.shapes fetchApi "/boards/b1/items/i7" no_options initial
  = (Ok (JObj [("id", JStr "shape"); ("type", JStr "shape")]),
     sent initial (request_of Doubles.stringify Doubles.query_string Doubles.client
                     "/boards/b1/items/i7" no_options)).
Proof.
  apply (against Doubles.shapes fetchApi_decodes_json
           "/boards/b1/items/i7" no_options initial
           (mkResponse 200 "OK" (Some "application/json; charset=utf-8") "shape")).
  - reflexivity.
  - simpl; lia.
  - simpl; lia.
  - discriminate.
  - exists "application/json; charset=utf-8". split; reflexivity.
Defined.

Lemma single_methods_fail_fast_witness :
  is_bulk (GetItem "b1" "i7") = false
  /\ FailFast Doubles.not_found (against Doubles.not_found invoke (GetItem "b1" "i7")).
Proof.
  split; [reflexivity|].
  apply (against Doubles.not_found single_methods_fail_fast). reflexivity.
Defined.

Lemma single_methods_send_one_request_witness :
  exists req,
    snd (against Doubles.not_found invoke (DeleteItem "b1" "i7") initial)
    = sent initial req.
Proof.
  apply (against Doubles.not_found single_methods_send_one_request
           (DeleteItem "b1" "i7") eq_refl eq_refl initial
           (fst (against Doubles.not_found invoke (DeleteItem "b1" "i7") initial))).
  reflexivity.
Defined.

Lemma bulk_operations_collect_witness :
  Collects (against Doubles.second_fails bulkCreateItems_switch "b1") create_label
    [Doubles.sticky "A"; Doubles.sticky "B"; Doubles.sticky "C"] initial
    (against Doubles.second_fails bulkCreateItems "b1"
       [Doubles.sticky "A"; Doubles.sticky "B"; Doubles.sticky "C"] initial).
Proof.
  apply (proj1 (against Doubles.second_fails bulk_operations_collect "b1" initial)).
  simpl; lia.
Defined.

Lemma bulk_request_counts_witness :
  length (calls (snd (against Doubles.not_found bulkDeleteItems "b1"
                        ["i1"; "i2"; "i3"] initial)))
  = length (calls initial) + length ["i1"; "i2"; "i3"].
Proof.
  apply (proj1 (against Doubles.not_found bulk_request_counts "b1" initial)).
  simpl; lia.
Defined.

Lemma falsy_body_is_not_sent_witness :
  truthy JNull = false
  /\ against Doubles.shapes fetchApi "/boards/b1/shapes/i7" (with_body "PATCH" JNull) initial
     = against Doubles.shapes fetchApi "/boards/b1/shapes/i7" (with_method "PATCH") initial.
Proof.
  split; [reflexivity|].
  apply (proj2 (against Doubles.shapes falsy_body_is_not_sent
                  "/boards/b1/shapes/i7" "PATCH" JNull initial eq_refl)).
Defined.

Lemma item_without_data_dropped_witness :
  exists e,
    err_name e = "TypeError"
    /\ against Doubles.creating bulkCreateItems_switch "b1"
         (mkItem "sticky_note" JUndefined JUndefined JUndefined JUndefined JUndefined)
         initial
       = (Throw e, initial)
    /\ forall createdItems,
         against Doubles.creating bulkCreateItems_body "b1"
           (mkItem "sticky_note" JUndefined JUndefined JUndefined JUndefined JUndefined)
           createdItems initial
         = (Ok createdItems,
            logged initial
              (create_label
                 (mkItem "sticky_note" JUndefined JUndefined JUndefined JUndefined
                    JUndefined)) e).
Proof.
  apply (against Doubles.creating item_without_data_dropped "b1"
           (mkItem "sticky_note" JUndefined JUndefined JUndefined JUndefined JUndefined)
           initial).
  - simpl. left. reflexivity.
  - left. reflexivity.
Defined.

Lemma masked_token_shape_witness :
  Index.masked "abc" = "abc" ++ "..." ++ "abc"
  /\ String.length (Index.masked "0123456789ab") = 13.
Proof.
  split.
  - apply (proj1 (masked_token_shape "abc")). simpl; lia.
  - apply (proj2 (masked_token_shape "0123456789ab")). simpl; lia.
Defined.


Lemma tool_call_rejects_bad_calls_witness :
  against Doubles.creating CallTool Doubles.pretty (unknown_tool "fly") initial
  = (Ok (mkResult (Some "Error: Unknown tool: fly") true),
     logged initial "Error handling tool call:" (Error "Unknown tool: fly")).
Proof.
  apply (proj1 (against Doubles.creating tool_call_rejects_bad_calls
                  Doubles.pretty initial)).
  simpl. intros H.
  repeat (destruct H as [H | H]; [discriminate H|]). exact H.
Defined.

Lemma bulk_tools_report_counts_witness :
  fst (against Doubles.not_found CallTool Doubles.pretty
         (bulk_delete_items "b1" ["i1"; "i2"; "i3"]) initial)
  = Ok (mkResult (Some "Deleted 3 items from board b1") false).
Proof.
  destruct (proj1 (against Doubles.not_found bulk_tools_report_counts
                     Doubles.pretty "b1" initial) ["i1"; "i2"; "i3"])
    as [os [w' [_ Hrun]]].
  - simpl; lia.
  - rewrite Hrun. reflexivity.
Defined.

Lemma creation_tools_report_undefined_id_witness :
  exists req,
    against Doubles.empty_200 CallTool Doubles.pretty
      (create_card "b1" (Some "Plan") None None None) initial
    = (Ok (mkResult (Some "Created card with ID: undefined") false), sent initial req).
Proof.
  assert (Hplain : forall (history : list Request) (req : Request),
             exists response,
               Doubles.empty_200 history req = inr response /\ plain_success response).
  { intros history req. exists (mkResponse 200 "OK" None "").
    split; [reflexivity|]. unfold plain_success. simpl.
    split; [lia|]. split; [lia | left; reflexivity]. }
  exact (against Doubles.empty_200 creation_tools_report_undefined_id Hplain
           Doubles.pretty (create_card "b1" (Some "Plan") None None None) "card"
           initial eq_refl).
Defined.
